(** * meat-curer: the SHT31 sensor driver and its HTTP front end

    A shallow embedding of [curer/sht31.py] (the I2C driver: command
    write, block read, CRC-8 validation, decoding of raw counts) and of
    the request handlers of [curer/app.py], followed by the properties
    the specification states about them.

    Python integers are [Z], Python floats are IEEE-754 binary64
    ([PrimFloat.float]), [None]-or-int results are [option Z], and code
    that talks to the bus or raises runs in a state-and-exception monad
    over an explicit world: the queue of frames the sensor will answer
    with and the chronological log of bus and timer operations. *)

From Stdlib Require Import ZArith List Lia Bool Floats String.
Import ListNotations.
Local Open Scope Z_scope.
Set Warnings "-inexact-float,-register-all".

(** ** Python values, exceptions and the effect monad *)

Module Py.

Inductive exn : Set :=
| TypeError
| ValueError
| IndexError
| AttributeError
| OverflowError
| IOError.

Inductive result (A : Type) : Type :=
| Ok (a : A)
| Raise (e : exn).

Arguments Ok {A} a.
Arguments Raise {A} e.

(** A computation over a state [S]: it returns or raises, and leaves a
    state behind in both cases (effects performed before a [raise] stay
    performed). *)
Definition M (S A : Type) : Type := S -> result A * S.

Definition ret {S A : Type} (a : A) : M S A := fun s => (Ok a, s).

Definition raise {S A : Type} (e : exn) : M S A := fun s => (Raise e, s).

Definition bind {S A B : Type} (c : M S A) (k : A -> M S B) : M S B :=
  fun s =>
    match c s with
    | (Ok a, s') => k a s'
    | (Raise e, s') => (Raise e, s')
    end.

Definition lift {S A : Type} (r : result A) : M S A := fun s => (r, s).

Declare Scope py_scope.
Delimit Scope py_scope with py.

Notation "x <- c ;; k" := (bind c (fun x => k))
  (at level 61, c at next level, right associativity) : py_scope.
Notation "c ;; k" := (bind c (fun _ => k))
  (at level 61, right associativity) : py_scope.

(** [l[i]] for a non-negative literal index: [IndexError] past the end. *)
Definition getitem {A : Type} (l : list A) (i : nat) : result A :=
  match nth_error l i with
  | Some a => Ok a
  | None => Raise IndexError
  end.

(** [l[lo:hi]] for non-negative literal bounds; a slice never raises, it
    is cut at the end of the list. *)
Definition slice {A : Type} (l : list A) (lo hi : nat) : list A :=
  firstn (hi - lo) (skipn lo l).

(** The binary64 value nearest to an integer, ties to even, and
    infinity past the binary64 range.  It is exact below 2^53. *)
Definition nearest_float (n : Z) : float :=
  SF2Prim (SpecFloat.binary_normalize prec emax n 0 false).

(** The coercion of the int operand in [float * int] and [float / int]:
    the nearest binary64 value, and [OverflowError] for an integer too
    large to convert, that is, one whose nearest value is not finite. *)
Definition float_of_int (n : Z) : result float :=
  if is_infinity (nearest_float n) then Raise OverflowError
  else Ok (nearest_float n).

(** [float("nan")] *)
Definition float_nan : float := nan.

(** [a & b] where [a] may be [None]: [None & int] is a [TypeError]. *)
Definition py_and (a : option Z) (b : Z) : result Z :=
  match a with
  | Some x => Ok (Z.land x b)
  | None => Raise TypeError
  end.

(** [bool(n)] for an integer [n]. *)
Definition py_bool (n : Z) : bool := negb (n =? 0).

(** The values the request handlers of [app.py] pass around. *)
Inductive pyval : Type :=
| PNone
| PInt (n : Z)
| PFloat (f : float)
| PStr (s : string)
| PIsoTime (t : Z)              (* the text [datetime.isoformat()] gives for instant [t] *)
| PTuple (items : list pyval)
| PBoundMethod (name : string). (* [obj.name], a method referenced but not called *)

(** [a, b = v]: only an iterable can be unpacked, and it must yield
    exactly two items. *)
Definition unpack2 (v : pyval) : result (pyval * pyval) :=
  match v with
  | PTuple [a; b] => Ok (a, b)
  | PTuple _ => Raise ValueError
  | PStr (String a (String b EmptyString)) =>
      Ok (PStr (String a EmptyString), PStr (String b EmptyString))
  | PStr _ => Raise ValueError
  | _ => Raise TypeError
  end.

(** [v[i]] on a value: tuples are indexed, strings give one-character
    strings, the rest is not subscriptable. *)
Definition subscript (v : pyval) (i : nat) : result pyval :=
  match v with
  | PTuple items => getitem items i
  | PStr s =>
      match String.get i s with
      | Some c => Ok (PStr (String c EmptyString))
      | None => Raise IndexError
      end
  | _ => Raise TypeError
  end.

End Py.

Import Py.
Local Open Scope py_scope.

(** ** The bus and the timer *)

Module Bus.

(** What the outside world observes of the driver, in order. *)
Inductive event : Set :=
| EvOpen (bus : Z)                      (* smbus.SMBus(bus) *)
| EvSleep (seconds : float)             (* time.sleep(seconds) *)
| EvWrite (bus addr reg data : Z)       (* write_byte_data(addr, reg, data) *)
| EvRead (bus addr reg len : Z).        (* read_i2c_block_data(addr, reg, len) *)

(** [replies]: the frames the peripheral answers the coming block reads
    with, first read first.  [log]: the operations performed so far,
    oldest first. *)
Record world : Type := {
  replies : list (list Z);
  log : list event
}.

Definition emit (e : event) (w : world) : world :=
  {| replies := replies w; log := log w ++ [e] |}.

(** [smbus.SMBus(bus)]: the handle is the bus index. *)
Definition SMBus (bus : Z) : M world Z :=
  fun w => (Ok bus, emit (EvOpen bus) w).

Definition sleep (seconds : float) : M world unit :=
  fun w => (Ok tt, emit (EvSleep seconds) w).

Definition write_byte_data (dev addr reg data : Z) : M world unit :=
  fun w => (Ok tt, emit (EvWrite dev addr reg data) w).

(** A block read consumes the next reply; with none left the transport
    fails. *)
Definition read_i2c_block_data (dev addr reg len : Z) : M world (list Z) :=
  fun w =>
    let w' := {| replies := tl (replies w);
                 log := log w ++ [EvRead dev addr reg len] |} in
    match replies w with
    | frame :: _ => (Ok frame, w')
    | [] => (Raise IOError, w')
    end.

End Bus.

Import Bus.

(** ** [curer/sht31.py] *)

Module Sht31.

Definition SHT31_I2CADDR : Z := 0x44.

Definition SHT31_MEAS_HIGHREP_STRETCH : Z := 0x2C06.
Definition SHT31_MEAS_MEDREP_STRETCH : Z := 0x2C0D.
Definition SHT31_MEAS_LOWREP_STRETCH : Z := 0x2C10.
Definition SHT31_MEAS_HIGHREP : Z := 0x2400.
Definition SHT31_MEAS_MEDREP : Z := 0x240B.
Definition SHT31_MEAS_LOWREP : Z := 0x2416.
Definition SHT31_READSTATUS : Z := 0xF32D.
Definition SHT31_CLEARSTATUS : Z := 0x3041.
Definition SHT31_SOFTRESET : Z := 0x30A2.
Definition SHT31_HEATER_ON : Z := 0x306D.
Definition SHT31_HEATER_OFF : Z := 0x3066.

Definition SHT31_STATUS_DATA_CRC_ERROR : Z := 0x0001.
Definition SHT31_STATUS_COMMAND_ERROR : Z := 0x0002.
Definition SHT31_STATUS_RESET_DETECTED : Z := 0x0010.
Definition SHT31_STATUS_TEMPERATURE_ALERT : Z := 0x0400.
Definition SHT31_STATUS_HUMIDITY_ALERT : Z := 0x0800.
Definition SHT31_STATUS_HEATER_ACTIVE : Z := 0x2000.
Definition SHT31_STATUS_ALERT_PENDING : Z := 0x8000.

Definition I2C_DEVICE_BUS : Z := 1.

(** The attributes of an [SHT31] object ([_logger] only writes debug
    lines and is left out). *)
Record SHT31 : Type := {
  address : Z;
  _device : Z
}.

Definition __init__ (address : Z) (i2c : pyval) : M world SHT31 :=
  dev <- SMBus I2C_DEVICE_BUS ;;
  sleep 0.05 ;;
  ret {| address := address; _device := dev |}.

Definition _writeCommand (self : SHT31) (cmd : Z) : M world unit :=
  write_byte_data (_device self) (address self) (Z.shiftr cmd 8) (Z.land cmd 0xFF).

Definition _readBytes (self : SHT31) (register length : Z) : M world (list Z) :=
  results <- read_i2c_block_data (_device self) (address self) register length ;;
  ret results.

(** One turn of the inner loop of [_crc8]. *)
Definition crc8_bit (polynomial crc : Z) : Z :=
  if negb (Z.land crc 0x80 =? 0)
  then Z.lxor (Z.shiftl crc 1) polynomial
  else Z.shiftl crc 1.

(** One turn of the outer loop: [crc ^= buffer[index]], then eight
    turns of the inner loop. *)
Definition crc8_byte (polynomial crc b : Z) : Z :=
  Nat.iter 8 (crc8_bit polynomial) (Z.lxor crc b).

Definition _crc8 (buffer : list Z) : Z :=
  let polynomial := 0x31 in
  let crc := 0xFF in
  Z.land (fold_left (crc8_byte polynomial) buffer crc) 0xFF.

Definition reset (self : SHT31) : M world unit :=
  _writeCommand self SHT31_SOFTRESET ;;
  sleep 0.01.

Definition clear_status (self : SHT31) : M world unit :=
  _writeCommand self SHT31_CLEARSTATUS.

Definition read_status (self : SHT31) : M world (option Z) :=
  _writeCommand self SHT31_READSTATUS ;;
  buffer <- _readBytes self 0 3 ;;
  b0 <- lift (getitem buffer 0) ;;
  b1 <- lift (getitem buffer 1) ;;
  let stat := Z.lor (Z.shiftl b0 8) b1 in
  b2 <- lift (getitem buffer 2) ;;
  if negb (b2 =? _crc8 (slice buffer 0 2))
  then ret None
  else ret (Some stat).

(** The shape shared by the seven predicates:
    [bool(self.read_status() & mask)]. *)
Definition status_flag (mask : Z) (self : SHT31) : M world bool :=
  stat <- read_status self ;;
  masked <- lift (py_and stat mask) ;;
  ret (py_bool masked).

Definition is_data_crc_error : SHT31 -> M world bool :=
  status_flag SHT31_STATUS_DATA_CRC_ERROR.

Definition is_command_error : SHT31 -> M world bool :=
  status_flag SHT31_STATUS_COMMAND_ERROR.

Definition is_reset_detected : SHT31 -> M world bool :=
  status_flag SHT31_STATUS_RESET_DETECTED.

Definition is_tracking_temperature_alert : SHT31 -> M world bool :=
  status_flag SHT31_STATUS_TEMPERATURE_ALERT.

Definition is_tracking_humidity_alert : SHT31 -> M world bool :=
  status_flag SHT31_STATUS_HUMIDITY_ALERT.

Definition is_heater_active : SHT31 -> M world bool :=
  status_flag SHT31_STATUS_HEATER_ACTIVE.

Definition is_alert_pending : SHT31 -> M world bool :=
  status_flag SHT31_STATUS_ALERT_PENDING.

Definition set_heater (self : SHT31) (doEnable : bool) : M world unit :=
  if doEnable
  then _writeCommand self SHT31_HEATER_ON
  else _writeCommand self SHT31_HEATER_OFF.

Definition read_temperature_humidity (self : SHT31) : M world (float * float) :=
  _writeCommand self SHT31_MEAS_HIGHREP ;;
  sleep 0.015 ;;
  buffer <- _readBytes self 0 6 ;;
  b2 <- lift (getitem buffer 2) ;;
  if negb (b2 =? _crc8 (slice buffer 0 2))
  then ret (float_nan, float_nan)
  else
    b0 <- lift (getitem buffer 0) ;;
    b1 <- lift (getitem buffer 1) ;;
    let rawTemperature := Z.lor (Z.shiftl b0 8) b1 in
    rawTemperature' <- lift (float_of_int rawTemperature) ;;
    full_scale <- lift (float_of_int 0xFFFF) ;;
    let temperature := (175.0 * rawTemperature' / full_scale - 45.0)%float in
    b5 <- lift (getitem buffer 5) ;;
    if negb (b5 =? _crc8 (slice buffer 3 5))
    then ret (float_nan, float_nan)
    else
      b3 <- lift (getitem buffer 3) ;;
      b4 <- lift (getitem buffer 4) ;;
      let rawHumidity := Z.lor (Z.shiftl b3 8) b4 in
      rawHumidity' <- lift (float_of_int rawHumidity) ;;
      full_scale' <- lift (float_of_int 0xFFFF) ;;
      let humidity := (100.0 * rawHumidity' / full_scale')%float in
      ret (temperature, humidity).

Definition read_temperature (self : SHT31) : M world float :=
  th <- read_temperature_humidity self ;;
  let '(temperature, humidity) := th in
  ret temperature.

Definition read_humidity (self : SHT31) : M world float :=
  th <- read_temperature_humidity self ;;
  let '(temperature, humidity) := th in
  ret humidity.

End Sht31.

Import Sht31.

(** ** [curer/app.py] *)

Module App.

(** The module-level variables of [app.py], the clock that
    [datetime.datetime.now()] reads, and the world behind the sensor. *)
Record globals : Type := {
  sensor_name : string;
  sensor : SHT31;
  last_measurement : pyval;
  last_measurement_time : option Z;
  debug_mode : bool;
  debug_measurement : pyval;
  clock : Z;
  hw : world
}.

Definition get : M globals globals := fun s => (Ok s, s).

Definition set_last_measurement (v : pyval) : M globals unit :=
  fun s =>
    (Ok tt,
     {| sensor_name := sensor_name s; sensor := sensor s;
        last_measurement := v;
        last_measurement_time := last_measurement_time s;
        debug_mode := debug_mode s; debug_measurement := debug_measurement s;
        clock := clock s; hw := hw s |}).

Definition set_last_measurement_time (t : option Z) : M globals unit :=
  fun s =>
    (Ok tt,
     {| sensor_name := sensor_name s; sensor := sensor s;
        last_measurement := last_measurement s;
        last_measurement_time := t;
        debug_mode := debug_mode s; debug_measurement := debug_measurement s;
        clock := clock s; hw := hw s |}).

(** [datetime.datetime.now()] *)
Definition datetime_now : M globals Z := fun s => (Ok (clock s), s).

(** [t.isoformat()]: [None] has no such attribute. *)
Definition isoformat (t : option Z) : result pyval :=
  match t with
  | Some i => Ok (PIsoTime i)
  | None => Raise AttributeError
  end.

Definition SHT31_methods : list string :=
  ["_writeCommand"; "_readBytes"; "reset"; "clear_status"; "read_status";
   "is_data_crc_error"; "is_command_error"; "is_reset_detected";
   "is_tracking_temperature_alert"; "is_tracking_humidity_alert";
   "is_heater_active"; "is_alert_pending"; "set_heater";
   "read_temperature_humidity"; "read_temperature"; "read_humidity";
   "_crc8"]%string.

(** [obj.name] on an [SHT31] object: a data attribute gives its value, a
    method name gives the bound method, and nothing is called. *)
Definition getattr (obj : SHT31) (name : string) : result pyval :=
  if String.eqb name "address" then Ok (PInt (address obj))
  else if String.eqb name "_device" then Ok (PInt (_device obj))
  else if existsb (String.eqb name) SHT31_methods then Ok (PBoundMethod name)
  else Raise AttributeError.

(** The state of the module once it is imported: [sensor = SHT31()] has
    opened the bus, nothing has been measured. *)
Definition module_init (now : Z) (w : world) : result globals * world :=
  match __init__ SHT31_I2CADDR (PInt I2C_DEVICE_BUS) w with
  | (Ok dev, w') =>
      (Ok {| sensor_name := "SHT31"; sensor := dev;
             last_measurement := PTuple [PNone; PNone];
             last_measurement_time := None;
             debug_mode := false;
             debug_measurement := PTuple [PFloat 22.7; PInt 75];
             clock := now; hw := w' |}, w')
  | (Raise e, w') => (Raise e, w')
  end.

(** What is left of [get_measurement] once [temperature] and [humidity]
    are bound. *)
Definition store_measurement (temperature humidity : pyval) : M globals pyval :=
  now <- datetime_now ;;
  set_last_measurement_time (Some now) ;;
  set_last_measurement (PTuple [humidity; temperature]) ;;
  s <- get ;;
  ret (last_measurement s).

Definition get_measurement : M globals pyval :=
  s <- get ;;
  method <- lift (getattr (sensor s) "read_temperature_humidity") ;;
  th <- lift (unpack2 method) ;;
  let '(temperature, humidity) := th in
  store_measurement temperature humidity.

(** [jsonify(d)]: the response carries the document [d]. *)
Inductive response : Type :=
| Json (doc : list (string * pyval)).

Definition get_temperature : M globals response :=
  m <- get_measurement ;;
  temperature <- lift (subscript m 0) ;;
  s <- get ;;
  timestamp <- lift (isoformat (last_measurement_time s)) ;;
  ret (Json [("name"%string, PStr (sensor_name s));
             ("temperature"%string, temperature);
             ("timestamp"%string, timestamp)]).

Definition get_humidity : M globals response :=
  m <- get_measurement ;;
  humidity <- lift (subscript m 1) ;;
  s <- get ;;
  timestamp <- lift (isoformat (last_measurement_time s)) ;;
  ret (Json [("name"%string, PStr (sensor_name s));
             ("humidity"%string, humidity);
             ("timestamp"%string, timestamp)]).

Definition get_temperature_and_humidity : M globals response :=
  m <- get_measurement ;;
  ht <- lift (unpack2 m) ;;
  let '(humidity, temperature) := ht in
  s <- get ;;
  timestamp <- lift (isoformat (last_measurement_time s)) ;;
  ret (Json [("name"%string, PStr (sensor_name s));
             ("temperature"%string, temperature);
             ("humidity"%string, humidity);
             ("timestamp"%string, timestamp)]).

End App.

Import App.

(** ** The reference CRC, as the specification words it

    The parametrised bitwise CRC: a register of [width] bits, fed most
    significant bit first, with optional reflection of each input byte
    and of the result and a final XOR.  Unlike [_crc8] it keeps the
    register within [width] bits after every shift. *)

Module CrcReference.

Record params : Type := {
  width : Z;
  poly : Z;
  init : Z;
  refin : bool;
  refout : bool;
  xorout : Z
}.

(** The low [w] bits of [x] in reverse order. *)
Fixpoint reflect (w : nat) (x : Z) : Z :=
  match w with
  | O => 0
  | S w' => Z.lor (Z.shiftl (Z.land x 1) (Z.of_nat w')) (reflect w' (Z.shiftr x 1))
  end.

Definition shift_msb (p : params) (reg : Z) : Z :=
  let shifted := Z.land (Z.shiftl reg 1) (Z.ones (width p)) in
  if Z.testbit reg (width p - 1) then Z.lxor shifted (poly p) else shifted.

Definition feed (p : params) (reg b : Z) : Z :=
  let b' := if refin p then reflect 8 b else b in
  Nat.iter 8 (shift_msb p) (Z.lxor reg (Z.shiftl b' (width p - 8))).

Definition crc (p : params) (data : list Z) : Z :=
  let reg := fold_left (feed p) data (init p) in
  Z.lxor (if refout p then reflect (Z.to_nat (width p)) reg else reg) (xorout p).

(** Polynomial 0x31, initial register 0xFF, no reflection, no final XOR. *)
Definition crc8_0x31 : params :=
  {| width := 8; poly := 0x31; init := 0xFF;
     refin := false; refout := false; xorout := 0 |}.

End CrcReference.

(** A byte as the bus delivers it. *)
Definition is_byte (b : Z) : Prop := 0 <= b < 256.

(** The 256 byte values, for checks by exhaustion. *)
Definition all_bytes : list Z := map Z.of_nat (seq 0 256).

(** The big-endian 16-bit value of a high and a low byte. *)
Definition be16 (hi lo : Z) : Z := 256 * hi + lo.

(** The transfer functions as the specification writes them. *)
Definition celsius_of_raw (raw_t : Z) : float :=
  (175.0 * nearest_float raw_t / 65535.0 - 45.0)%float.

Definition percent_of_raw (raw_h : Z) : float :=
  (100.0 * nearest_float raw_h / 65535.0)%float.

(** A world in which the sensor answers the next block read with
    [frame], after [history]. *)
Definition answering (frame : list Z) (rest : list (list Z)) (history : list event) : world :=
  {| replies := frame :: rest; log := history |}.

(** The seven status predicates with the position of the bit each one
    tests. *)
Definition status_predicates : list ((SHT31 -> M world bool) * Z) :=
  [ (is_data_crc_error, 0);
    (is_command_error, 1);
    (is_reset_detected, 4);
    (is_tracking_temperature_alert, 10);
    (is_tracking_humidity_alert, 11);
    (is_heater_active, 13);
    (is_alert_pending, 15) ].

(** The driver object [SHT31()] builds. *)
Definition default_sensor : SHT31 :=
  {| address := SHT31_I2CADDR; _device := I2C_DEVICE_BUS |}.

(** The module state of [app.py] right after import at instant [0], with
    a sensor about to answer one well-formed measurement frame. *)
Definition booted : globals :=
  {| sensor_name := "SHT31";
     sensor := default_sensor;
     last_measurement := PTuple [PNone; PNone];
     last_measurement_time := None;
     debug_mode := false;
     debug_measurement := PTuple [PFloat 22.7; PInt 75];
     clock := 0;
     hw := {| replies := [[0x62; 0x4D; 0x7C; 0x80; 0x00; 0xA2]];
              log := [EvOpen I2C_DEVICE_BUS; EvSleep 0.05] |} |}.

(** The eleven opcodes of the driver. *)
Definition commands : list Z :=
  [ SHT31_MEAS_HIGHREP_STRETCH; SHT31_MEAS_MEDREP_STRETCH; SHT31_MEAS_LOWREP_STRETCH;
    SHT31_MEAS_HIGHREP; SHT31_MEAS_MEDREP; SHT31_MEAS_LOWREP;
    SHT31_READSTATUS; SHT31_CLEARSTATUS; SHT31_SOFTRESET;
    SHT31_HEATER_ON; SHT31_HEATER_OFF ].

(** ** The polling loop of [sht31.py]

    [main] builds the driver and then, forever, prints a combined
    reading and sleeps two seconds.  The console adds the printed tuples
    to the world; [main] is run for a given number of turns of its
    [while True] loop ([logging.basicConfig] only sets a log level and is
    left out). *)

Module Main.

Record console : Type := {
  machine : world;
  stdout : list (float * float)
}.

(** A driver operation run inside the program: the console is kept. *)
Definition on_machine {A : Type} (c : M world A) : M console A :=
  fun s =>
    match c (machine s) with
    | (r, w') => (r, {| machine := w'; stdout := stdout s |})
    end.

(** [print(v)] *)
Definition print (v : float * float) : M console unit :=
  fun s => (Ok tt, {| machine := machine s; stdout := stdout s ++ [v] |}).

(** One turn of the body of [while True]. *)
Definition main_turn (sht31 : SHT31) : M console unit :=
  v <- on_machine (read_temperature_humidity sht31) ;;
  print v ;;
  on_machine (sleep 2).

Fixpoint main_loop (turns : nat) (sht31 : SHT31) : M console unit :=
  match turns with
  | O => ret tt
  | S turns' => main_turn sht31 ;; main_loop turns' sht31
  end.

Definition main (turns : nat) : M console unit :=
  sht31 <- on_machine (__init__ SHT31_I2CADDR (PInt I2C_DEVICE_BUS)) ;;
  main_loop turns sht31.

End Main.

Import Main.

(** ** The combined read with its checksum calls made visible

    [read_temperature_humidity], [read_temperature] and [read_humidity]
    once more, statement for statement, over a state that also records
    every call of [self._crc8] with the buffer it is given.  Forgetting
    the record gives back the functions of [Sht31]. *)

Module Traced.

Record probe : Type := {
  under : world;
  crc_calls : list (list Z)
}.

(** A bus or timer operation: the record of calls is kept. *)
Definition on_bus {A : Type} (c : M world A) : M probe A :=
  fun s =>
    match c (under s) with
    | (r, w') => (r, {| under := w'; crc_calls := crc_calls s |})
    end.

(** [self._crc8(buffer)], recorded. *)
Definition traced_crc8 (buffer : list Z) : M probe Z :=
  fun s =>
    (Ok (_crc8 buffer),
     {| under := under s; crc_calls := crc_calls s ++ [buffer] |}).

Definition traced_read_temperature_humidity (self : SHT31) : M probe (float * float) :=
  on_bus (_writeCommand self SHT31_MEAS_HIGHREP) ;;
  on_bus (sleep 0.015) ;;
  buffer <- on_bus (_readBytes self 0 6) ;;
  b2 <- lift (getitem buffer 2) ;;
  crc_t <- traced_crc8 (slice buffer 0 2) ;;
  if negb (b2 =? crc_t)
  then ret (float_nan, float_nan)
  else
    b0 <- lift (getitem buffer 0) ;;
    b1 <- lift (getitem buffer 1) ;;
    let rawTemperature := Z.lor (Z.shiftl b0 8) b1 in
    rawTemperature' <- lift (float_of_int rawTemperature) ;;
    full_scale <- lift (float_of_int 0xFFFF) ;;
    let temperature := (175.0 * rawTemperature' / full_scale - 45.0)%float in
    b5 <- lift (getitem buffer 5) ;;
    crc_h <- traced_crc8 (slice buffer 3 5) ;;
    if negb (b5 =? crc_h)
    then ret (float_nan, float_nan)
    else
      b3 <- lift (getitem buffer 3) ;;
      b4 <- lift (getitem buffer 4) ;;
      let rawHumidity := Z.lor (Z.shiftl b3 8) b4 in
      rawHumidity' <- lift (float_of_int rawHumidity) ;;
      full_scale' <- lift (float_of_int 0xFFFF) ;;
      let humidity := (100.0 * rawHumidity' / full_scale')%float in
      ret (temperature, humidity).

Definition traced_read_temperature (self : SHT31) : M probe float :=
  th <- traced_read_temperature_humidity self ;;
  let '(temperature, humidity) := th in
  ret temperature.

Definition traced_read_humidity (self : SHT31) : M probe float :=
  th <- traced_read_temperature_humidity self ;;
  let '(temperature, humidity) := th in
  ret humidity.

End Traced.

Import Traced.

(** ** Vocabulary of the further properties *)

(** Eight turns of the inner loop of [_crc8], seen on the low byte of
    the register. *)
Definition crc8_round (x : Z) : Z :=
  Z.land (Nat.iter 8 (crc8_bit 0x31) x) 0xFF.

(** The low byte of the register of [_crc8] after [buffer], started
    from [r]. *)
Definition crc8_register (buffer : list Z) (r : Z) : Z :=
  fold_left (fun r b => crc8_round (Z.lxor r (Z.land b 0xFF))) buffer r.

(** Element-wise exclusive or of two buffers. *)
Definition xor_bytes (a e : list Z) : list Z :=
  map (fun p => Z.lxor (fst p) (snd p)) (combine a e).

(** The number of bits set among the low eight of [x]. *)
Definition popcount8 (x : Z) : Z :=
  fold_right (fun i acc => Z.b2z (Z.testbit x i) + acc) 0 [0; 1; 2; 3; 4; 5; 6; 7].

(** The number of bit positions in which two triplets differ. *)
Definition bit_distance3 (b0 b1 b2 c0 c1 c2 : Z) : Z :=
  popcount8 (Z.lxor b0 c0) + popcount8 (Z.lxor b1 c1) + popcount8 (Z.lxor b2 c2).

(** The pair [read_temperature_humidity] returns for a frame of six
    bytes (lemma [read_temperature_humidity_decodes]); the value given
    to other frames is a placeholder. *)
Definition decode_frame (frame : list Z) : float * float :=
  match frame with
  | [b0; b1; b2; b3; b4; b5] =>
      if (b2 =? _crc8 [b0; b1]) && (b5 =? _crc8 [b3; b4])
      then (celsius_of_raw (Z.lor (Z.shiftl b0 8) b1),
            percent_of_raw (Z.lor (Z.shiftl b3 8) b4))
      else (nan, nan)
  | _ => (nan, nan)
  end.

(** The integer nearest to a float between 0 and 2^51: adding 2^52
    rounds to a whole number, whose mantissa is then read off. *)
Definition nearest_count (x : float) : Z :=
  Uint63.to_Z (normfr_mantissa (fst (frshiftexp (x + 4503599627370496.0)%float)))
  - 4503599627370496.

(** The transfer functions solved for the count, in binary64
    arithmetic, rounded to the nearest count. *)
Definition raw_of_celsius (t : float) : Z :=
  nearest_count ((t + 45.0) * 65535.0 / 175.0)%float.

Definition raw_of_percent (h : float) : Z :=
  nearest_count (h * 65535.0 / 100.0)%float.

(** The three bus operations of one combined read. *)
Definition measurement_traffic (self : SHT31) : list event :=
  [EvWrite (_device self) (address self) 0x24 0x00;
   EvSleep 0.015;
   EvRead (_device self) (address self) 0 6].

(** The two bus operations of one status read. *)
Definition status_traffic (self : SHT31) : list event :=
  [EvWrite (_device self) (address self) 0xF3 0x2D;
   EvRead (_device self) (address self) 0 3].

(** * Properties *)

(** ** The checksum *)

Section Crc8.

Lemma land_0xFF_mod (x : Z) : Z.land x 0xFF = x mod 256.
Proof.
  change 0xFF with (Z.ones 8).
  rewrite Z.land_ones by lia.
  reflexivity.
Qed.

Lemma land_0xFF_byte (b : Z) : is_byte b -> Z.land b 0xFF = b.
Proof.
  intros Hb. rewrite land_0xFF_mod. apply Z.mod_small. exact Hb.
Qed.

Lemma land_0xFF_range (x : Z) : is_byte (Z.land x 0xFF).
Proof.
  rewrite land_0xFF_mod. unfold is_byte. apply Z.mod_pos_bound. lia.
Qed.

Lemma land_lxor_distr (a b m : Z) :
  Z.land (Z.lxor a b) m = Z.lxor (Z.land a m) (Z.land b m).
Proof.
  apply Z.bits_inj'. intros n _.
  rewrite Z.land_spec, !Z.lxor_spec, !Z.land_spec.
  destruct (Z.testbit a n), (Z.testbit b n), (Z.testbit m n); reflexivity.
Qed.

(** [x & 2^k] is non-zero exactly when bit [k] of [x] is set. *)
Lemma land_pow2_test (x k : Z) :
  0 <= k -> negb (Z.land x (2 ^ k) =? 0) = Z.testbit x k.
Proof.
  intros Hk.
  destruct (Z.testbit x k) eqn:E.
  - destruct (Z.eqb_spec (Z.land x (2 ^ k)) 0) as [H0 | H0]; [ | reflexivity ].
    exfalso.
    assert (Hb : Z.testbit (Z.land x (2 ^ k)) k = true).
    { rewrite Z.land_spec, E, Z.pow2_bits_true by exact Hk. reflexivity. }
    rewrite H0, Z.bits_0 in Hb. discriminate.
  - assert (H0 : Z.land x (2 ^ k) = 0).
    { apply Z.bits_inj'. intros n Hn.
      rewrite Z.land_spec, Z.bits_0.
      rewrite Z.pow2_bits_eqb by exact Hk.
      destruct (Z.eqb_spec k n) as [<- | _].
      - rewrite E. reflexivity.
      - apply andb_false_r. }
    rewrite H0. reflexivity.
Qed.

(** [crc & 0x80] is non-zero exactly when bit 7 of [crc] is set. *)
Lemma top_bit_test (c : Z) : negb (Z.land c 0x80 =? 0) = Z.testbit c 7.
Proof.
  change 0x80 with (2 ^ 7). apply land_pow2_test. lia.
Qed.

Lemma shiftl_1_low8 (c : Z) :
  Z.land (Z.shiftl c 1) 0xFF = Z.land (Z.shiftl (Z.land c 0xFF) 1) (Z.ones 8).
Proof.
  change (Z.ones 8) with 0xFF.
  rewrite !land_0xFF_mod, !Z.shiftl_mul_pow2 by lia.
  rewrite Z.mul_mod_idemp_l by lia.
  reflexivity.
Qed.

(** One shift of the unbounded Python register, seen through its low
    eight bits, is one shift of the 8-bit reference register. *)
Lemma crc8_bit_low8 (c : Z) :
  Z.land (crc8_bit 0x31 c) 0xFF =
  CrcReference.shift_msb CrcReference.crc8_0x31 (Z.land c 0xFF).
Proof.
  unfold crc8_bit, CrcReference.shift_msb. cbn [CrcReference.width CrcReference.poly CrcReference.crc8_0x31].
  rewrite top_bit_test.
  replace (Z.testbit (Z.land c 0xFF) (8 - 1)) with (Z.testbit c 7)
    by (rewrite Z.land_spec; change (Z.testbit 0xFF (8 - 1)) with true;
        rewrite andb_true_r; reflexivity).
  destruct (Z.testbit c 7).
  - rewrite land_lxor_distr, shiftl_1_low8. reflexivity.
  - apply shiftl_1_low8.
Qed.

Lemma iter_commute {A B : Type} (g : A -> B) (f : A -> A) (f' : B -> B) :
  (forall x, g (f x) = f' (g x)) ->
  forall n x, g (Nat.iter n f x) = Nat.iter n f' (g x).
Proof.
  intros Hstep n x. induction n as [ | n IH]; simpl.
  - reflexivity.
  - rewrite Hstep, IH. reflexivity.
Qed.

Lemma crc8_byte_low8 (c b : Z) :
  is_byte b ->
  Z.land (crc8_byte 0x31 c b) 0xFF =
  CrcReference.feed CrcReference.crc8_0x31 (Z.land c 0xFF) b.
Proof.
  intros Hb. unfold crc8_byte, CrcReference.feed.
  rewrite (iter_commute (fun x => Z.land x 0xFF) _
             (CrcReference.shift_msb CrcReference.crc8_0x31) crc8_bit_low8).
  cbn [CrcReference.refin CrcReference.width CrcReference.crc8_0x31].
  rewrite land_lxor_distr, (land_0xFF_byte b Hb).
  change (8 - 8) with 0. rewrite Z.shiftl_0_r. reflexivity.
Qed.

Lemma crc8_fold_low8 (buffer : list Z) :
  Forall is_byte buffer ->
  forall c,
    Z.land (fold_left (crc8_byte 0x31) buffer c) 0xFF =
    fold_left (CrcReference.feed CrcReference.crc8_0x31) buffer (Z.land c 0xFF).
Proof.
  induction 1 as [ | b buffer Hb _ IH]; intros c; simpl.
  - reflexivity.
  - rewrite IH, crc8_byte_low8 by exact Hb. reflexivity.
Qed.

Lemma crc8_range (buffer : list Z) : is_byte (_crc8 buffer).
Proof.
  unfold _crc8. apply land_0xFF_range.
Qed.

Example crc8_sensirion_vector : _crc8 [0xBE; 0xEF] = 0x92.
Proof. reflexivity. Qed.

Example crc8_check_string :
  _crc8 [0x31; 0x32; 0x33; 0x34; 0x35; 0x36; 0x37; 0x38; 0x39] = 0xF7.
Proof. reflexivity. Qed.

(** C2. On every sequence of 8-bit values [_crc8] computes the reference
    CRC-8 with polynomial 0x31, initial register 0xFF, most significant
    bit first, no reflection of input or output and no final XOR; the
    result is an 8-bit value, it is a function of the input alone (equal
    inputs give equal checksums), and the empty sequence gives 0xFF. *)
Theorem crc8_is_reference_crc8 (buffer : list Z) (Hbytes : Forall is_byte buffer) :
  _crc8 buffer = CrcReference.crc CrcReference.crc8_0x31 buffer
  /\ is_byte (_crc8 buffer)
  /\ (forall buffer', buffer' = buffer -> _crc8 buffer' = _crc8 buffer)
  /\ _crc8 [] = 0xFF.
Proof.
  repeat split.
  - unfold _crc8, CrcReference.crc.
    cbn [CrcReference.refout CrcReference.xorout CrcReference.init CrcReference.crc8_0x31].
    rewrite Z.lxor_0_r.
    rewrite (crc8_fold_low8 buffer Hbytes). reflexivity.
  - apply crc8_range.
  - apply crc8_range.
  - intros buffer' ->. reflexivity.
Qed.

Lemma crc8_is_reference_crc8_witness :
  Forall is_byte [0xBE; 0xEF]
  /\ _crc8 [0xBE; 0xEF] = CrcReference.crc CrcReference.crc8_0x31 [0xBE; 0xEF].
Proof.
  assert (H : Forall is_byte [0xBE; 0xEF]).
  { repeat constructor; unfold is_byte; lia. }
  split; [ exact H | exact (proj1 (crc8_is_reference_crc8 [0xBE; 0xEF] H)) ].
Defined.

End Crc8.

(** ** Decoding a measurement frame *)

Section Measurement.

Variable self : SHT31.

Lemma in_all_bytes (b : Z) : is_byte b -> In b all_bytes.
Proof.
  intros Hb. unfold all_bytes.
  replace b with (Z.of_nat (Z.to_nat b)) by (unfold is_byte in Hb; lia).
  apply in_map, in_seq. unfold is_byte in Hb. lia.
Qed.

(** A boolean check that holds on the 256 x 256 table holds for every
    pair of bytes. *)
Lemma by_exhaustion (P : Z -> Z -> bool) :
  forallb (fun hi => forallb (P hi) all_bytes) all_bytes = true ->
  forall hi lo, is_byte hi -> is_byte lo -> P hi lo = true.
Proof.
  intros Hall hi lo Hhi Hlo.
  rewrite forallb_forall in Hall.
  specialize (Hall hi (in_all_bytes hi Hhi)).
  rewrite forallb_forall in Hall.
  exact (Hall lo (in_all_bytes lo Hlo)).
Qed.

(** [hi << 8 | lo] is the big-endian value of the two bytes. *)
Lemma shift_or_be16 (hi lo : Z) :
  is_byte lo -> Z.lor (Z.shiftl hi 8) lo = be16 hi lo.
Proof.
  intros Hlo. unfold be16.
  assert (Hdisj : Z.land (Z.shiftl hi 8) lo = 0).
  { apply Z.bits_inj'. intros n Hn.
    rewrite Z.land_spec, Z.bits_0.
    destruct (Z.ltb_spec n 8) as [Hlt | Hge].
    - rewrite Z.shiftl_spec_low by exact Hlt. reflexivity.
    - rewrite <- (Z.mod_small lo (2 ^ 8)) by exact Hlo.
      rewrite Z.mod_pow2_bits_high by lia. apply andb_false_r. }
  rewrite <- Z.lxor_lor by exact Hdisj.
  rewrite <- Z.add_nocarry_lxor by exact Hdisj.
  rewrite Z.shiftl_mul_pow2 by lia. change (2 ^ 8) with 256. lia.
Qed.

Lemma be16_range (hi lo : Z) : is_byte hi -> is_byte lo -> 0 <= be16 hi lo < 65536.
Proof.
  unfold is_byte, be16. lia.
Qed.

(** The source divides by the integer 0xFFFF, the specification by the
    float 65535.0: the same binary64 value. *)
Lemma float_of_0xFFFF : float_of_int 0xFFFF = Ok 65535.0%float.
Proof. reflexivity. Qed.

(** Every 16-bit count converts to a float, and decodes to a float that
    is neither NaN nor an infinity. *)
Lemma counts_checked (hi lo : Z) :
  is_byte hi -> is_byte lo ->
  negb (is_infinity (nearest_float (be16 hi lo)))
  && (is_finite (celsius_of_raw (be16 hi lo))
      && is_finite (percent_of_raw (be16 hi lo))) = true.
Proof.
  intros Hhi Hlo.
  apply (by_exhaustion
           (fun h l => negb (is_infinity (nearest_float (be16 h l)))
                       && (is_finite (celsius_of_raw (be16 h l))
                           && is_finite (percent_of_raw (be16 h l)))));
    try assumption.
  vm_compute. reflexivity.
Qed.

(** No 16-bit count is too large to convert. *)
Lemma count_converts (hi lo : Z) :
  is_byte hi -> is_byte lo ->
  float_of_int (be16 hi lo) = Ok (nearest_float (be16 hi lo)).
Proof.
  intros Hhi Hlo.
  pose proof (counts_checked hi lo Hhi Hlo) as H.
  apply andb_true_iff in H. destruct H as [H _].
  unfold float_of_int.
  destruct (is_infinity (nearest_float (be16 hi lo))); [ discriminate H | reflexivity ].
Qed.


(** What [read_temperature_humidity] does when the sensor answers with
    six values: the command write, the wait and the block read are
    logged, the reply is consumed, and the checks and the conversions
    are made in the order of the source. *)
Lemma read_temperature_humidity_run (b0 b1 b2 b3 b4 b5 : Z) rest history :
  read_temperature_humidity self (answering [b0; b1; b2; b3; b4; b5] rest history) =
  (if negb (b2 =? _crc8 [b0; b1]) then Ok (float_nan, float_nan)
   else match float_of_int (Z.lor (Z.shiftl b0 8) b1) with
        | Raise e => Raise e
        | Ok t =>
            if negb (b5 =? _crc8 [b3; b4]) then Ok (float_nan, float_nan)
            else match float_of_int (Z.lor (Z.shiftl b3 8) b4) with
                 | Raise e => Raise e
                 | Ok h => Ok ((175.0 * t / 65535.0 - 45.0)%float,
                               (100.0 * h / 65535.0)%float)
                 end
        end,
   {| replies := rest;
      log := history ++ [EvWrite (_device self) (address self) 0x24 0x00;
                         EvSleep 0.015;
                         EvRead (_device self) (address self) 0 6] |}).
Proof.
  unfold read_temperature_humidity, _readBytes, _writeCommand, answering.
  unfold bind, ret, lift, write_byte_data, sleep, read_i2c_block_data, emit.
  cbn [replies log tl getitem nth_error slice firstn skipn Nat.sub].
  rewrite <- !app_assoc. cbn [app].
  change (Z.shiftr SHT31_MEAS_HIGHREP 8) with 0x24.
  change (Z.land SHT31_MEAS_HIGHREP 0xFF) with 0x00.
  change (float_of_int 0xFFFF) with (Ok 65535.0%float).
  destruct (negb (b2 =? _crc8 [b0; b1])); [ reflexivity | ].
  destruct (float_of_int (Z.lor (Z.shiftl b0 8) b1)) as [t | e]; [ | reflexivity ].
  destruct (negb (b5 =? _crc8 [b3; b4])); [ reflexivity | ].
  destruct (float_of_int (Z.lor (Z.shiftl b3 8) b4)) as [h | e]; reflexivity.
Qed.

End Measurement.

(** A count beyond the binary64 range is not decoded: the conversion
    raises, after the temperature check and before the humidity check. *)
Example oversized_count_overflows :
  fst (read_temperature_humidity default_sensor
         (answering [2 ^ 1020 + 0x62; 0x4D; 0x7C; 0x80; 0x00; 0xA2] [] []))
  = Raise OverflowError.
Proof. vm_compute. reflexivity. Qed.

Section MeasurementClaims.

Lemma is_byte_frame6 (b0 b1 b2 b3 b4 b5 : Z) :
  Forall is_byte [b0; b1; b2; b3; b4; b5] ->
  is_byte b0 /\ is_byte b1 /\ is_byte b2 /\ is_byte b3 /\ is_byte b4 /\ is_byte b5.
Proof.
  intros H.
  repeat match goal with
         | H : Forall _ (_ :: _) |- _ => inversion H; subst; clear H
         end.
  repeat first [ assumption | split ].
Qed.

(** The decoded pair for a six-byte frame, in the specification's terms. *)
Lemma read_temperature_humidity_bytes (self : SHT31) (b0 b1 b2 b3 b4 b5 : Z) rest history :
  Forall is_byte [b0; b1; b2; b3; b4; b5] ->
  fst (read_temperature_humidity self (answering [b0; b1; b2; b3; b4; b5] rest history)) =
  Ok (if (b2 =? _crc8 [b0; b1]) && (b5 =? _crc8 [b3; b4])
      then (celsius_of_raw (be16 b0 b1), percent_of_raw (be16 b3 b4))
      else (nan, nan)).
Proof.
  intros Hbytes.
  destruct (is_byte_frame6 _ _ _ _ _ _ Hbytes) as (H0 & H1 & _ & H3 & H4 & _).
  rewrite read_temperature_humidity_run. cbn [fst].
  rewrite (shift_or_be16 b0 b1 H1), (shift_or_be16 b3 b4 H4).
  rewrite (count_converts b0 b1 H0 H1), (count_converts b3 b4 H3 H4).
  destruct (b2 =? _crc8 [b0; b1]), (b5 =? _crc8 [b3; b4]); reflexivity.
Qed.




(** C3. For every six-byte frame whose two CRC checks pass, the decoded
    temperature is 175.0 * raw_t / 65535.0 - 45.0 and the decoded
    humidity is 100.0 * raw_h / 65535.0, with raw_t the big-endian value
    of bytes 0 and 1 and raw_h that of bytes 3 and 4; raw_t = 0x0000
    gives -45.0, raw_t = 0xFFFF gives 130.0, raw_h = 0x0000 gives 0.0 and
    raw_h = 0xFFFF gives 100.0. *)
Theorem decoded_values_follow_formulas
  (self : SHT31) (b0 b1 b2 b3 b4 b5 : Z) (rest : list (list Z)) (history : list event)
  (Hbytes : Forall is_byte [b0; b1; b2; b3; b4; b5])
  (Ht : b2 = _crc8 [b0; b1]) (Hh : b5 = _crc8 [b3; b4]) :
  fst (read_temperature_humidity self (answering [b0; b1; b2; b3; b4; b5] rest history))
  = Ok (celsius_of_raw (be16 b0 b1), percent_of_raw (be16 b3 b4))
  /\ celsius_of_raw 0x0000 = (-45.0)%float
  /\ celsius_of_raw 0xFFFF = 130.0%float
  /\ percent_of_raw 0x0000 = 0.0%float
  /\ percent_of_raw 0xFFFF = 100.0%float.
Proof.
  split; [ | repeat split; reflexivity ].
  rewrite (read_temperature_humidity_bytes self _ _ _ _ _ _ rest history Hbytes).
  rewrite <- Ht, <- Hh, !Z.eqb_refl. reflexivity.
Qed.

Lemma decoded_values_follow_formulas_witness :
  Forall is_byte [0xFF; 0xFF; 0xAC; 0x00; 0x00; 0x81]
  /\ 0xAC = _crc8 [0xFF; 0xFF]
  /\ 0x81 = _crc8 [0x00; 0x00]
  /\ fst (read_temperature_humidity
            default_sensor
            (answering [0xFF; 0xFF; 0xAC; 0x00; 0x00; 0x81] [] []))
     = Ok (celsius_of_raw (be16 0xFF 0xFF), percent_of_raw (be16 0x00 0x00)).
Proof.
  assert (H : Forall is_byte [0xFF; 0xFF; 0xAC; 0x00; 0x00; 0x81]).
  { repeat constructor; unfold is_byte; lia. }
  split; [ exact H | ].
  split; [ reflexivity | ].
  split; [ reflexivity | ].
  exact (proj1 (decoded_values_follow_formulas
                  default_sensor
                  0xFF 0xFF 0xAC 0x00 0x00 0x81 [] [] H eq_refl eq_refl)).
Defined.

End MeasurementClaims.

(** ** What goes over the bus *)

Section BusTraffic.

(** Whatever the sensor answers (six values, fewer, or nothing at all),
    a combined read performs the same three operations. *)
Lemma read_temperature_humidity_log (self : SHT31) (w : world) :
  log (snd (read_temperature_humidity self w)) =
  log w ++ [EvWrite (_device self) (address self) 0x24 0x00;
            EvSleep 0.015;
            EvRead (_device self) (address self) 0 6].
Proof.
  unfold read_temperature_humidity, _readBytes, _writeCommand.
  unfold bind, ret, lift, write_byte_data, sleep, read_i2c_block_data, emit.
  cbn [replies log].
  change (Z.shiftr SHT31_MEAS_HIGHREP 8) with 0x24.
  change (Z.land SHT31_MEAS_HIGHREP 0xFF) with 0x00.
  destruct (replies w) as [ | buffer rest ]; cbn [snd log].
  - rewrite <- !List.app_assoc. reflexivity.
  - repeat match goal with
           | |- context [match getitem ?l ?i with _ => _ end] =>
               destruct (getitem l i)
           | |- context [match float_of_int ?n with _ => _ end] =>
               destruct (float_of_int n)
           | |- context [if ?c then _ else _] => destruct c
           end;
      cbn [snd log]; rewrite <- !List.app_assoc; reflexivity.
Qed.

Lemma high_low_bytes (cmd : Z) :
  0 <= cmd < 65536 ->
  is_byte (Z.shiftr cmd 8) /\ is_byte (Z.land cmd 0xFF)
  /\ cmd = be16 (Z.shiftr cmd 8) (Z.land cmd 0xFF).
Proof.
  intros Hcmd.
  rewrite Z.shiftr_div_pow2 by lia. change (2 ^ 8) with 256.
  rewrite land_0xFF_mod. unfold is_byte, be16.
  pose proof (Z.div_mod cmd 256 ltac:(lia)) as Hdm.
  pose proof (Z.mod_pos_bound cmd 256 ltac:(lia)) as Hm.
  assert (0 <= cmd / 256 < 256).
  { split.
    - apply Z.div_pos; lia.
    - apply Z.div_lt_upper_bound; lia. }
  lia.
Qed.

(** C6. Writing a command transmits exactly two bytes in one bus write:
    the high byte of the opcode as the register selector and its low byte
    as the data byte; every opcode of the driver is a 16-bit value, so the
    two bytes carry it whole.  [read_temperature_humidity] writes
    MeasureHighRep as register 0x24 with data 0x00, waits 0.015 s, and
    issues one 6-byte block read at register 0. *)
Theorem command_write_is_two_bytes
  (self : SHT31) (cmd : Z) (w : world) (Hcmd : 0 <= cmd < 65536) :
  (exists reg data,
      _writeCommand self cmd w =
      (Ok tt, {| replies := replies w;
                 log := log w ++ [EvWrite (_device self) (address self) reg data] |})
      /\ is_byte reg /\ is_byte data
      /\ cmd = be16 reg data)
  /\ Forall (fun c => 0 <= c < 65536) commands
  /\ SHT31_MEAS_HIGHREP = 0x2400
  /\ log (snd (read_temperature_humidity self w)) =
     log w ++ [EvWrite (_device self) (address self) 0x24 0x00;
               EvSleep 0.015;
               EvRead (_device self) (address self) 0 6].
Proof.
  split; [ | split; [ | split ] ].
  - exists (Z.shiftr cmd 8), (Z.land cmd 0xFF).
    split; [ reflexivity | ].
    apply high_low_bytes. exact Hcmd.
  - unfold commands. repeat constructor; vm_compute; discriminate.
  - reflexivity.
  - apply read_temperature_humidity_log.
Qed.

Lemma command_write_is_two_bytes_witness :
  0 <= SHT31_MEAS_HIGHREP < 65536
  /\ exists reg data,
       _writeCommand default_sensor
         SHT31_MEAS_HIGHREP {| replies := []; log := [] |} =
       (Ok tt, {| replies := [];
                  log := [] ++ [EvWrite I2C_DEVICE_BUS SHT31_I2CADDR reg data] |})
       /\ is_byte reg /\ is_byte data
       /\ SHT31_MEAS_HIGHREP = be16 reg data.
Proof.
  assert (H : 0 <= SHT31_MEAS_HIGHREP < 65536) by (unfold SHT31_MEAS_HIGHREP; lia).
  split; [ exact H | ].
  exact (proj1 (command_write_is_two_bytes
                  default_sensor
                  SHT31_MEAS_HIGHREP {| replies := []; log := [] |} H)).
Defined.

(** Forgetting the record of checksum calls gives back the combined
    read: same outcome, same world. *)
Lemma traced_read_erases (self : SHT31) (w : world) (calls : list (list Z)) :
  fst (traced_read_temperature_humidity self {| under := w; crc_calls := calls |})
  = fst (read_temperature_humidity self w)
  /\ under (snd (traced_read_temperature_humidity self
                   {| under := w; crc_calls := calls |}))
     = snd (read_temperature_humidity self w).
Proof.
  unfold traced_read_temperature_humidity, read_temperature_humidity.
  unfold on_bus, traced_crc8, _readBytes, _writeCommand.
  unfold bind, ret, lift, write_byte_data, sleep, read_i2c_block_data, emit.
  cbn [under crc_calls replies log].
  destruct (replies w) as [ | buffer rest ]; [ split; reflexivity | ].
  cbn [under crc_calls].
  repeat match goal with
         | |- context [match getitem ?l ?i with _ => _ end] =>
             destruct (getitem l i); cbn [under crc_calls]
         | |- context [match float_of_int ?n with _ => _ end] =>
             destruct (float_of_int n); cbn [under crc_calls]
         | |- context [if ?c then _ else _] => destruct c; cbn [under crc_calls]
         end;
    split; reflexivity.
Qed.

(** The checksum calls of a combined read of six bytes: the temperature
    triplet always, the humidity triplet after a temperature match. *)
Lemma traced_read_calls (self : SHT31) (b0 b1 b2 b3 b4 b5 : Z) rest history calls :
  Forall is_byte [b0; b1; b2; b3; b4; b5] ->
  crc_calls (snd (traced_read_temperature_humidity self
                    {| under := answering [b0; b1; b2; b3; b4; b5] rest history;
                       crc_calls := calls |}))
  = calls ++ [b0; b1] :: (if b2 =? _crc8 [b0; b1] then [[b3; b4]] else []).
Proof.
  intros Hbytes.
  destruct (is_byte_frame6 _ _ _ _ _ _ Hbytes) as (H0 & H1 & _ & H3 & H4 & _).
  unfold traced_read_temperature_humidity, answering.
  unfold on_bus, traced_crc8, _readBytes, _writeCommand.
  unfold bind, ret, lift, write_byte_data, sleep, read_i2c_block_data, emit.
  cbn [under crc_calls replies log tl getitem nth_error slice firstn skipn Nat.sub].
  change (float_of_int 0xFFFF) with (Ok 65535.0%float).
  rewrite (shift_or_be16 b0 b1 H1), (shift_or_be16 b3 b4 H4).
  rewrite (count_converts b0 b1 H0 H1), (count_converts b3 b4 H3 H4).
  destruct (b2 =? _crc8 [b0; b1]); cbn [negb snd crc_calls]; [ | reflexivity ].
  destruct (b5 =? _crc8 [b3; b4]); cbn [negb snd crc_calls];
    rewrite <- List.app_assoc; reflexivity.
Qed.

Lemma traced_projection_calls (self : SHT31) (s : probe) :
  crc_calls (snd (traced_read_temperature self s))
  = crc_calls (snd (traced_read_temperature_humidity self s))
  /\ crc_calls (snd (traced_read_humidity self s))
     = crc_calls (snd (traced_read_temperature_humidity self s)).
Proof.
  unfold traced_read_temperature, traced_read_humidity, bind.
  destruct (traced_read_temperature_humidity self s) as [[[t h] | e] s'];
    split; reflexivity.
Qed.

(** When the temperature check fails, [read_temperature] returns without
    a humidity check: on the frame below, whose humidity triplet is
    intact, the only checksum computed is that of bytes 0 and 1. *)
Lemma failed_temperature_check_skips_humidity_check :
  let frame := [0x62; 0x4D; 0x00; 0x80; 0x00; 0xA2] in
  let s := snd (traced_read_temperature default_sensor
                  {| under := answering frame [] []; crc_calls := [] |}) in
  Forall is_byte frame
  /\ nth 2 frame 0 <> _crc8 (slice frame 0 2)
  /\ nth 5 frame 0 = _crc8 (slice frame 3 5)
  /\ log (under s) = measurement_traffic default_sensor
  /\ crc_calls s = [[0x62; 0x4D]]
  /\ ~ In (slice frame 3 5) (crc_calls s).
Proof.
  cbv zeta.
  split; [ repeat constructor; unfold is_byte; lia | ].
  split; [ vm_compute; discriminate | ].
  split; [ reflexivity | ].
  split; [ reflexivity | ].
  split; [ reflexivity | ].
  vm_compute. intros [H | []]. discriminate H.
Qed.

(** C7 (amended). [read_temperature] returns the temperature component
    and [read_humidity] the humidity component of the very computation
    [read_temperature_humidity] performs, in every world: same outcome,
    same final world, hence the same command write, wait and 6-byte
    block read, with no single-field command.  On a frame of six bytes
    each of them checks the temperature CRC, and checks the humidity CRC
    only when the temperature CRC matches; the field returned is a
    decoded value when both match and NaN otherwise. *)
Theorem single_field_reads_run_the_combined_read
  (self : SHT31) (w : world)
  (b0 b1 b2 b3 b4 b5 : Z) (rest : list (list Z)) (history : list event)
  (calls : list (list Z))
  (Hbytes : Forall is_byte [b0; b1; b2; b3; b4; b5]) :
  read_temperature self w =
    (match fst (read_temperature_humidity self w) with
     | Ok th => Ok (fst th)
     | Raise e => Raise e
     end,
     snd (read_temperature_humidity self w))
  /\ read_humidity self w =
    (match fst (read_temperature_humidity self w) with
     | Ok th => Ok (snd th)
     | Raise e => Raise e
     end,
     snd (read_temperature_humidity self w))
  /\ log (snd (read_temperature self w)) =
     log w ++ [EvWrite (_device self) (address self) 0x24 0x00;
               EvSleep 0.015;
               EvRead (_device self) (address self) 0 6]
  /\ log (snd (read_humidity self w)) =
     log w ++ [EvWrite (_device self) (address self) 0x24 0x00;
               EvSleep 0.015;
               EvRead (_device self) (address self) 0 6]
  /\ fst (read_temperature self (answering [b0; b1; b2; b3; b4; b5] rest history)) =
     Ok (if (b2 =? _crc8 [b0; b1]) && (b5 =? _crc8 [b3; b4])
         then celsius_of_raw (be16 b0 b1) else nan)
  /\ fst (read_humidity self (answering [b0; b1; b2; b3; b4; b5] rest history)) =
     Ok (if (b2 =? _crc8 [b0; b1]) && (b5 =? _crc8 [b3; b4])
         then percent_of_raw (be16 b3 b4) else nan)
  /\ fst (traced_read_temperature_humidity self {| under := w; crc_calls := calls |})
     = fst (read_temperature_humidity self w)
  /\ under (snd (traced_read_temperature_humidity self
                   {| under := w; crc_calls := calls |}))
     = snd (read_temperature_humidity self w)
  /\ crc_calls (snd (traced_read_temperature self
                       {| under := answering [b0; b1; b2; b3; b4; b5] rest history;
                          crc_calls := calls |}))
     = calls ++ [b0; b1] :: (if b2 =? _crc8 [b0; b1] then [[b3; b4]] else [])
  /\ crc_calls (snd (traced_read_humidity self
                       {| under := answering [b0; b1; b2; b3; b4; b5] rest history;
                          crc_calls := calls |}))
     = calls ++ [b0; b1] :: (if b2 =? _crc8 [b0; b1] then [[b3; b4]] else []).
Proof.
  assert (Ht : forall w0, read_temperature self w0 =
    (match fst (read_temperature_humidity self w0) with
     | Ok th => Ok (fst th)
     | Raise e => Raise e
     end,
     snd (read_temperature_humidity self w0))).
  { intros w0. unfold read_temperature, bind.
    destruct (read_temperature_humidity self w0) as [[[t h] | e] w']; reflexivity. }
  assert (Hh : forall w0, read_humidity self w0 =
    (match fst (read_temperature_humidity self w0) with
     | Ok th => Ok (snd th)
     | Raise e => Raise e
     end,
     snd (read_temperature_humidity self w0))).
  { intros w0. unfold read_humidity, bind.
    destruct (read_temperature_humidity self w0) as [[[t h] | e] w']; reflexivity. }
  split; [ apply Ht | ].
  split; [ apply Hh | ].
  split; [ rewrite Ht; apply read_temperature_humidity_log | ].
  split; [ rewrite Hh; apply read_temperature_humidity_log | ].
  split.
  { rewrite Ht. cbn [fst].
    rewrite (read_temperature_humidity_bytes self _ _ _ _ _ _ rest history Hbytes).
    destruct ((b2 =? _crc8 [b0; b1]) && (b5 =? _crc8 [b3; b4])); reflexivity. }
  split.
  { rewrite Hh. cbn [fst].
    rewrite (read_temperature_humidity_bytes self _ _ _ _ _ _ rest history Hbytes).
    destruct ((b2 =? _crc8 [b0; b1]) && (b5 =? _crc8 [b3; b4])); reflexivity. }
  split; [ apply traced_read_erases | ].
  split; [ apply traced_read_erases | ].
  split.
  - rewrite (proj1 (traced_projection_calls self _)).
    apply traced_read_calls. exact Hbytes.
  - rewrite (proj2 (traced_projection_calls self _)).
    apply traced_read_calls. exact Hbytes.
Qed.

Lemma single_field_reads_run_the_combined_read_witness :
  Forall is_byte [0x62; 0x4D; 0x7C; 0x80; 0x00; 0xA2]
  /\ fst (read_temperature default_sensor
            (answering [0x62; 0x4D; 0x7C; 0x80; 0x00; 0xA2] [] [])) =
     Ok (if (0x7C =? _crc8 [0x62; 0x4D]) && (0xA2 =? _crc8 [0x80; 0x00])
         then celsius_of_raw (be16 0x62 0x4D) else nan)
  /\ crc_calls (snd (traced_read_temperature default_sensor
                       {| under := answering [0x62; 0x4D; 0x7C; 0x80; 0x00; 0xA2] [] [];
                          crc_calls := [] |}))
     = [] ++ [0x62; 0x4D] :: (if 0x7C =? _crc8 [0x62; 0x4D] then [[0x80; 0x00]] else []).
Proof.
  assert (H : Forall is_byte [0x62; 0x4D; 0x7C; 0x80; 0x00; 0xA2]).
  { repeat constructor; unfold is_byte; lia. }
  split; [ exact H | ].
  pose proof (single_field_reads_run_the_combined_read
                default_sensor {| replies := []; log := [] |}
                0x62 0x4D 0x7C 0x80 0x00 0xA2 [] [] [] H) as T.
  split.
  - exact (proj1 (proj2 (proj2 (proj2 (proj2 T))))).
  - exact (proj1 (proj2 (proj2 (proj2 (proj2 (proj2 (proj2 (proj2 (proj2 T))))))))).
Defined.

End BusTraffic.

(** ** The status word *)

Section Status.

Lemma is_byte_frame3 (b0 b1 b2 : Z) :
  Forall is_byte [b0; b1; b2] -> is_byte b0 /\ is_byte b1 /\ is_byte b2.
Proof.
  intros H.
  repeat match goal with
         | H : Forall _ (_ :: _) |- _ => inversion H; subst; clear H
         end.
  repeat first [ assumption | split ].
Qed.

(** What [read_status] does when the sensor answers with three values. *)
Lemma read_status_run (self : SHT31) (b0 b1 b2 : Z) rest history :
  read_status self (answering [b0; b1; b2] rest history) =
  (Ok (if negb (b2 =? _crc8 [b0; b1]) then None
       else Some (Z.lor (Z.shiftl b0 8) b1)),
   {| replies := rest;
      log := history ++ [EvWrite (_device self) (address self) 0xF3 0x2D;
                         EvRead (_device self) (address self) 0 3] |}).
Proof.
  unfold read_status, _readBytes, _writeCommand, answering.
  unfold bind, ret, lift, write_byte_data, read_i2c_block_data, emit.
  cbn [replies log tl getitem nth_error slice firstn skipn Nat.sub].
  rewrite <- !List.app_assoc. cbn [List.app].
  change (Z.shiftr SHT31_READSTATUS 8) with 0xF3.
  change (Z.land SHT31_READSTATUS 0xFF) with 0x2D.
  destruct (negb (b2 =? _crc8 [b0; b1])); reflexivity.
Qed.

Lemma status_flag_run (mask : Z) (self : SHT31) (b0 b1 b2 : Z) rest history :
  fst (status_flag mask self (answering [b0; b1; b2] rest history)) =
  if negb (b2 =? _crc8 [b0; b1]) then Raise TypeError
  else Ok (py_bool (Z.land (Z.lor (Z.shiftl b0 8) b1) mask)).
Proof.
  unfold status_flag, bind at 1.
  rewrite read_status_run.
  destruct (negb (b2 =? _crc8 [b0; b1])); reflexivity.
Qed.

(** A predicate whose mask is the single bit [k], on a three-byte frame. *)
Lemma status_flag_bit (k : Z) (self : SHT31) (b0 b1 b2 : Z) rest history :
  0 <= k -> is_byte b1 ->
  (b2 <> _crc8 [b0; b1] ->
   fst (status_flag (2 ^ k) self (answering [b0; b1; b2] rest history)) = Raise TypeError)
  /\ (b2 = _crc8 [b0; b1] ->
      fst (status_flag (2 ^ k) self (answering [b0; b1; b2] rest history))
      = Ok (Z.testbit (be16 b0 b1) k)).
Proof.
  intros Hk H1. rewrite status_flag_run.
  unfold py_bool. rewrite land_pow2_test by exact Hk.
  rewrite (shift_or_be16 b0 b1 H1).
  destruct (Z.eqb_spec b2 (_crc8 [b0; b1])) as [E | E]; cbn [negb]; split; intros E';
    first [ reflexivity | contradiction ].
Qed.

Example heater_bit_set :
  fst (is_heater_active default_sensor
         (answering [0x20; 0x10; 0x1E] [] [])) = Ok true.
Proof. reflexivity. Qed.

Example heater_bit_clear :
  fst (is_heater_active default_sensor
         (answering [0x00; 0x10; 0xC2] [] [])) = Ok false.
Proof. reflexivity. Qed.

Example heater_query_on_corrupted_frame :
  fst (is_heater_active default_sensor
         (answering [0x20; 0x10; 0x1F] [] [])) = Raise TypeError.
Proof. reflexivity. Qed.

(** C4. For every three-byte status frame [read_status] sends ReadStatus,
    reads three bytes at register 0, and returns the big-endian word of
    bytes 0 and 1 if and only if byte 2 equals the CRC-8 of bytes 0 and
    1; on a mismatch it returns [None], not a zero word. *)
Theorem read_status_absent_on_crc_mismatch
  (self : SHT31) (b0 b1 b2 : Z) (rest : list (list Z)) (history : list event)
  (Hbytes : Forall is_byte [b0; b1; b2]) :
  let r := fst (read_status self (answering [b0; b1; b2] rest history)) in
  (r = Ok (Some (be16 b0 b1)) <-> b2 = _crc8 [b0; b1])
  /\ (b2 <> _crc8 [b0; b1] -> r = Ok None /\ r <> Ok (Some 0))
  /\ log (snd (read_status self (answering [b0; b1; b2] rest history))) =
     history ++ [EvWrite (_device self) (address self) 0xF3 0x2D;
                 EvRead (_device self) (address self) 0 3].
Proof.
  destruct (is_byte_frame3 _ _ _ Hbytes) as (_ & H1 & _).
  cbv zeta. rewrite read_status_run. cbn [fst snd log].
  rewrite (shift_or_be16 b0 b1 H1).
  destruct (Z.eqb_spec b2 (_crc8 [b0; b1])) as [E | E]; cbn [negb].
  - repeat split; try reflexivity; try contradiction; intros; assumption.
  - split; [ split; [ discriminate | contradiction ] | ].
    split; [ | reflexivity ].
    intros _. split; [ reflexivity | discriminate ].
Qed.

Lemma read_status_absent_on_crc_mismatch_witness :
  Forall is_byte [0x20; 0x10; 0x1F]
  /\ 0x1F <> _crc8 [0x20; 0x10]
  /\ fst (read_status default_sensor (answering [0x20; 0x10; 0x1F] [] [])) = Ok None.
Proof.
  assert (H : Forall is_byte [0x20; 0x10; 0x1F]).
  { repeat constructor; unfold is_byte; lia. }
  assert (Hcrc : 0x1F <> _crc8 [0x20; 0x10]) by (vm_compute; discriminate).
  split; [ exact H | ].
  split; [ exact Hcrc | ].
  exact (proj1 (proj1 (proj2 (read_status_absent_on_crc_mismatch
                                default_sensor 0x20 0x10 0x1F [] [] H)) Hcrc)).
Defined.

(** C5. On a three-byte status frame whose CRC check fails, each of the
    seven predicates hands the failure to its caller (the [None] status
    makes the mask operation raise [TypeError]) and none returns false;
    on a frame whose CRC check passes, each returns true exactly when its
    mask bit is set in the status word.  The masks are the single bits
    0, 1, 4, 10, 11, 13 (0x2000, heater) and 15. *)
Theorem status_predicates_fail_closed
  (self : SHT31) (b0 b1 b2 : Z) (rest : list (list Z)) (history : list event)
  (Hbytes : Forall is_byte [b0; b1; b2]) :
  Forall (fun pk : (SHT31 -> M world bool) * Z =>
            (b2 <> _crc8 [b0; b1] ->
             fst (fst pk self (answering [b0; b1; b2] rest history)) = Raise TypeError)
            /\ (b2 = _crc8 [b0; b1] ->
                fst (fst pk self (answering [b0; b1; b2] rest history))
                = Ok (Z.testbit (be16 b0 b1) (snd pk))))
         status_predicates
  /\ map (fun pk => 2 ^ snd pk) status_predicates =
     [SHT31_STATUS_DATA_CRC_ERROR; SHT31_STATUS_COMMAND_ERROR;
      SHT31_STATUS_RESET_DETECTED; SHT31_STATUS_TEMPERATURE_ALERT;
      SHT31_STATUS_HUMIDITY_ALERT; SHT31_STATUS_HEATER_ACTIVE;
      SHT31_STATUS_ALERT_PENDING].
Proof.
  destruct (is_byte_frame3 _ _ _ Hbytes) as (_ & H1 & _).
  split; [ | reflexivity ].
  unfold status_predicates.
  repeat (apply Forall_cons;
          [ cbn [fst snd];
            match goal with
            | |- context [Z.testbit _ ?k] =>
                apply (status_flag_bit k self b0 b1 b2 rest history); [ lia | exact H1 ]
            end
          | ]).
  apply Forall_nil.
Qed.

Lemma status_predicates_fail_closed_witness :
  Forall is_byte [0x20; 0x10; 0x1E]
  /\ 0x1E = _crc8 [0x20; 0x10]
  /\ fst (is_heater_active default_sensor (answering [0x20; 0x10; 0x1E] [] []))
     = Ok (Z.testbit (be16 0x20 0x10) 13).
Proof.
  assert (H : Forall is_byte [0x20; 0x10; 0x1E]).
  { repeat constructor; unfold is_byte; lia. }
  split; [ exact H | ].
  split; [ reflexivity | ].
  pose proof (proj1 (status_predicates_fail_closed
                       default_sensor 0x20 0x10 0x1E [] [] H)) as Hall.
  rewrite Forall_forall in Hall.
  refine (proj2 (Hall (is_heater_active, 13) _) eq_refl).
  unfold status_predicates. do 5 right. left. reflexivity.
Defined.

End Status.

(** ** Construction *)

Section Construction.

Lemma init_run (address : Z) (i2c : pyval) (w : world) :
  __init__ address i2c w =
  (Ok {| address := address; _device := I2C_DEVICE_BUS |},
   {| replies := replies w;
      log := log w ++ [EvOpen I2C_DEVICE_BUS; EvSleep 0.05] |}).
Proof.
  unfold __init__, bind, ret, SMBus, sleep, emit. cbn [replies log].
  rewrite <- List.app_assoc. reflexivity.
Qed.

Example module_init_boots :
  module_init 0 {| replies := [[0x62; 0x4D; 0x7C; 0x80; 0x00; 0xA2]]; log := [] |}
  = (Ok booted, hw booted).
Proof. reflexivity. Qed.

(** C10. Whatever is passed as [i2c], [__init__] yields the same driver
    object and leaves the same world: the argument is ignored, the device
    is opened on bus [I2C_DEVICE_BUS], which is 1, and any operation run
    on the constructed driver behaves the same for both arguments. *)
Theorem constructor_ignores_i2c_argument
  (address : Z) (i2c1 i2c2 : pyval) (w : world) :
  __init__ address i2c1 w = __init__ address i2c2 w
  /\ fst (__init__ address i2c1 w) = Ok {| address := address; _device := I2C_DEVICE_BUS |}
  /\ log (snd (__init__ address i2c1 w)) = log w ++ [EvOpen 1; EvSleep 0.05]
  /\ I2C_DEVICE_BUS = 1
  /\ forall (A : Type) (operation : SHT31 -> M world A),
       bind (__init__ address i2c1) operation w = bind (__init__ address i2c2) operation w.
Proof.
  split; [ rewrite !init_run; reflexivity | ].
  split; [ rewrite init_run; reflexivity | ].
  split; [ rewrite init_run; reflexivity | ].
  split; [ reflexivity | ].
  intros A operation. unfold bind. rewrite !init_run. reflexivity.
Qed.

End Construction.

(** ** The request handlers *)

Section Handlers.

(** [sensor.read_temperature_humidity] is looked up, not called: the
    value is a bound method, which cannot be unpacked. *)
Lemma method_reference_is_not_iterable (obj : SHT31) :
  getattr obj "read_temperature_humidity" = Ok (PBoundMethod "read_temperature_humidity")
  /\ unpack2 (PBoundMethod "read_temperature_humidity") = Raise TypeError.
Proof.
  split; reflexivity.
Qed.

Lemma get_measurement_run (s : globals) :
  get_measurement s = (Raise TypeError, s).
Proof.
  unfold get_measurement, bind, get, lift.
  destruct (method_reference_is_not_iterable (sensor s)) as [-> ->].
  reflexivity.
Qed.

(** Had the two values been obtained, they would be cached and returned
    humidity first. *)
Lemma store_measurement_order (temperature humidity : pyval) (s : globals) :
  fst (store_measurement temperature humidity s) = Ok (PTuple [humidity; temperature])
  /\ last_measurement_time (snd (store_measurement temperature humidity s)) = Some (clock s)
  /\ hw (snd (store_measurement temperature humidity s)) = hw s.
Proof.
  repeat split.
Qed.

Example temperature_request_after_boot :
  get_temperature booted = (Raise TypeError, booted).
Proof. reflexivity. Qed.

(** C9. Every call of [get_measurement] raises [TypeError] at the
    unpacking of the bound method [sensor.read_temperature_humidity]: it
    returns no measurement, the sensor is not contacted (the world behind
    it is untouched), and [last_measurement] and [last_measurement_time]
    keep their values. *)
Theorem get_measurement_raises_type_error (s : globals) :
  get_measurement s = (Raise TypeError, s)
  /\ (forall v s', get_measurement s <> (Ok v, s'))
  /\ hw (snd (get_measurement s)) = hw s
  /\ last_measurement (snd (get_measurement s)) = last_measurement s
  /\ last_measurement_time (snd (get_measurement s)) = last_measurement_time s.
Proof.
  rewrite get_measurement_run. cbn [snd].
  repeat split. intros v s'. discriminate.
Qed.

(** C8 (as the code behaves). The temperature route and the humidity
    route answer every request with a [TypeError] raised inside
    [get_measurement]: no JSON document is produced, so no [temperature]
    or [humidity] field carries a reading. *)
Theorem single_field_routes_return_no_document (s : globals) :
  get_temperature s = (Raise TypeError, s)
  /\ get_humidity s = (Raise TypeError, s)
  /\ (forall doc s', get_temperature s <> (Ok (Json doc), s'))
  /\ (forall doc s', get_humidity s <> (Ok (Json doc), s')).
Proof.
  assert (Ht : get_temperature s = (Raise TypeError, s)).
  { unfold get_temperature, bind at 1. rewrite get_measurement_run. reflexivity. }
  assert (Hh : get_humidity s = (Raise TypeError, s)).
  { unfold get_humidity, bind at 1. rewrite get_measurement_run. reflexivity. }
  rewrite Ht, Hh.
  repeat split; intros doc s'; discriminate.
Qed.

End Handlers.

(** * Further properties of the code *)

(** ** The algebra of [_crc8] *)

Section Crc8Algebra.

Lemma land_0xFF_idem (x : Z) : Z.land (Z.land x 0xFF) 0xFF = Z.land x 0xFF.
Proof.
  apply land_0xFF_byte, land_0xFF_range.
Qed.

Lemma lxor_byte (x y : Z) : is_byte x -> is_byte y -> is_byte (Z.lxor x y).
Proof.
  intros Hx Hy.
  rewrite <- (land_0xFF_byte x Hx), <- (land_0xFF_byte y Hy), <- land_lxor_distr.
  apply land_0xFF_range.
Qed.

Lemma lxor_cancel_r (x y m : Z) : Z.lxor x m = Z.lxor y m -> x = y.
Proof.
  intros H.
  rewrite <- (Z.lxor_0_r x), <- (Z.lxor_0_r y), <- (Z.lxor_nilpotent m).
  rewrite <- !Z.lxor_assoc, H. reflexivity.
Qed.

Lemma crc8_round_reference (x : Z) :
  crc8_round x =
  Nat.iter 8 (CrcReference.shift_msb CrcReference.crc8_0x31) (Z.land x 0xFF).
Proof.
  unfold crc8_round.
  apply (iter_commute (fun y => Z.land y 0xFF) (crc8_bit 0x31)
           (CrcReference.shift_msb CrcReference.crc8_0x31) crc8_bit_low8).
Qed.

Lemma crc8_round_mask (x : Z) : crc8_round (Z.land x 0xFF) = crc8_round x.
Proof.
  rewrite !crc8_round_reference, land_0xFF_idem. reflexivity.
Qed.

Lemma crc8_round_byte (x : Z) : is_byte (crc8_round x).
Proof.
  unfold crc8_round. apply land_0xFF_range.
Qed.

Lemma crc8_byte_round (c b : Z) :
  Z.land (crc8_byte 0x31 c b) 0xFF =
  crc8_round (Z.lxor (Z.land c 0xFF) (Z.land b 0xFF)).
Proof.
  rewrite <- land_lxor_distr, crc8_round_mask. reflexivity.
Qed.

Lemma crc8_fold_register (buffer : list Z) :
  forall c,
    Z.land (fold_left (crc8_byte 0x31) buffer c) 0xFF =
    crc8_register buffer (Z.land c 0xFF).
Proof.
  induction buffer as [ | b buffer IH]; intros c.
  - reflexivity.
  - cbn [fold_left crc8_register]. rewrite IH, crc8_byte_round. reflexivity.
Qed.

(** [_crc8] on any list of integers, as a fold over byte registers. *)
Lemma crc8_as_register (buffer : list Z) : _crc8 buffer = crc8_register buffer 0xFF.
Proof.
  unfold _crc8. rewrite crc8_fold_register. reflexivity.
Qed.

Lemma crc8_register_app (pre suf : list Z) (r : Z) :
  crc8_register (pre ++ suf) r = crc8_register suf (crc8_register pre r).
Proof.
  unfold crc8_register. apply fold_left_app.
Qed.

Lemma crc8_register_cons (b : Z) (buffer : list Z) (r : Z) :
  crc8_register (b :: buffer) r =
  crc8_register buffer (crc8_round (Z.lxor r (Z.land b 0xFF))).
Proof. reflexivity. Qed.

Lemma crc8_register_byte (buffer : list Z) :
  forall r, is_byte r -> is_byte (crc8_register buffer r).
Proof.
  induction buffer as [ | b buffer IH]; intros r Hr.
  - exact Hr.
  - rewrite crc8_register_cons. apply IH, crc8_round_byte.
Qed.

(** Eight shifts are linear over exclusive or ... *)
Lemma crc8_round_xor (x y : Z) :
  is_byte x -> is_byte y ->
  crc8_round (Z.lxor x y) = Z.lxor (crc8_round x) (crc8_round y).
Proof.
  intros Hx Hy. apply Z.eqb_eq.
  apply (by_exhaustion
           (fun a b => crc8_round (Z.lxor a b) =? Z.lxor (crc8_round a) (crc8_round b)));
    try assumption.
  vm_compute. reflexivity.
Qed.

(** ... and one-to-one on bytes. *)
Lemma crc8_round_injective (x y : Z) :
  is_byte x -> is_byte y -> crc8_round x = crc8_round y -> x = y.
Proof.
  intros Hx Hy Heq.
  assert (H : negb (crc8_round x =? crc8_round y) || (x =? y) = true).
  { apply (by_exhaustion
             (fun a b => negb (crc8_round a =? crc8_round b) || (a =? b)));
      try assumption.
    vm_compute. reflexivity. }
  rewrite Heq, Z.eqb_refl in H. cbn [negb orb] in H.
  apply Z.eqb_eq. exact H.
Qed.

Lemma crc8_register_injective (buffer : list Z) :
  forall r r', is_byte r -> is_byte r' ->
               crc8_register buffer r = crc8_register buffer r' -> r = r'.
Proof.
  induction buffer as [ | b buffer IH]; intros r r' Hr Hr' Heq.
  - exact Heq.
  - rewrite !crc8_register_cons in Heq.
    apply IH in Heq; try apply crc8_round_byte.
    apply crc8_round_injective in Heq;
      try (apply lxor_byte; [ assumption | apply land_0xFF_range ]).
    exact (lxor_cancel_r _ _ _ Heq).
Qed.

Lemma crc8_register_xor (a : list Z) :
  forall e r s,
    List.length a = List.length e -> is_byte r -> is_byte s ->
    crc8_register (xor_bytes a e) (Z.lxor r s) =
    Z.lxor (crc8_register a r) (crc8_register e s).
Proof.
  induction a as [ | x a IH]; intros [ | y e] r s Hlen Hr Hs;
    try discriminate Hlen.
  - reflexivity.
  - change (xor_bytes (x :: a) (y :: e)) with (Z.lxor x y :: xor_bytes a e).
    rewrite !crc8_register_cons.
    rewrite <- IH; try apply crc8_round_byte;
      [ | injection Hlen as Hlen; exact Hlen ].
    f_equal.
    rewrite <- crc8_round_xor;
      try (apply lxor_byte; [ assumption | apply land_0xFF_range ]).
    f_equal.
    rewrite land_lxor_distr.
    set (X := Z.land x 0xFF). set (Y := Z.land y 0xFF).
    rewrite !Z.lxor_assoc. f_equal.
    rewrite <- !Z.lxor_assoc. f_equal. apply Z.lxor_comm.
Qed.

Lemma xor_bytes_zeros (e : list Z) : xor_bytes e (repeat 0 (List.length e)) = e.
Proof.
  induction e as [ | y e IH].
  - reflexivity.
  - cbn [List.length repeat].
    change (xor_bytes (y :: e) (0 :: repeat 0 (List.length e)))
      with (Z.lxor y 0 :: xor_bytes e (repeat 0 (List.length e))).
    rewrite IH, Z.lxor_0_r. reflexivity.
Qed.

Lemma popcount8_0 : popcount8 0 = 0.
Proof. reflexivity. Qed.

Lemma is_byte_0 : is_byte 0.
Proof. unfold is_byte; lia. Qed.

Lemma is_byte_0xFF : is_byte 0xFF.
Proof. unfold is_byte; lia. Qed.

End Crc8Algebra.

Section Crc8Guarantees.

(** X1. [_crc8] reads only the low eight bits of each element of its
    buffer and always returns a byte: masking every element with 0xFF
    beforehand does not change the checksum, whatever integers the
    buffer holds. *)
Theorem crc8_reads_low_bytes_only (buffer : list Z) :
  _crc8 buffer = _crc8 (map (fun b => Z.land b 0xFF) buffer)
  /\ is_byte (_crc8 buffer).
Proof.
  split; [ | apply crc8_range ].
  rewrite !crc8_as_register.
  assert (H : forall r, crc8_register buffer r =
                        crc8_register (map (fun b => Z.land b 0xFF) buffer) r).
  { induction buffer as [ | b buffer IH]; intros r.
    - reflexivity.
    - cbn [map]. rewrite !crc8_register_cons, land_0xFF_idem. apply IH. }
  apply H.
Qed.

(** X2. Appending the checksum of a buffer to the buffer gives a buffer
    whose checksum is zero, and for a byte [b2] the converse holds: the
    checksum of [buffer ++ [b2]] is zero exactly when [b2] is the
    checksum of [buffer].  So the comparison the driver makes on a
    triplet is the same test as a zero residue over its three bytes. *)
Theorem crc8_zero_residue (buffer : list Z) (b2 : Z) (Hb2 : is_byte b2) :
  _crc8 (buffer ++ [_crc8 buffer]) = 0
  /\ (_crc8 (buffer ++ [b2]) = 0 <-> b2 = _crc8 buffer).
Proof.
  assert (Hres : forall x, is_byte x ->
            (_crc8 (buffer ++ [x]) = 0 <-> x = _crc8 buffer)).
  { intros x Hx.
    rewrite !crc8_as_register, crc8_register_app, crc8_register_cons.
    cbn [crc8_register fold_left].
    rewrite (land_0xFF_byte x Hx).
    pose proof (crc8_register_byte buffer 0xFF is_byte_0xFF) as Hr.
    set (r := crc8_register buffer 0xFF) in *.
    split.
    - intros H0.
      change 0 with (crc8_round 0) in H0.
      apply crc8_round_injective in H0;
        [ | apply lxor_byte; assumption | exact is_byte_0 ].
      apply Z.lxor_eq in H0. symmetry. exact H0.
    - intros ->. rewrite Z.lxor_nilpotent. reflexivity. }
  split; [ | apply Hres; exact Hb2 ].
  apply Hres; [ apply crc8_range | reflexivity ].
Qed.

Lemma crc8_zero_residue_witness :
  is_byte 0x92
  /\ _crc8 ([0xBE; 0xEF] ++ [_crc8 [0xBE; 0xEF]]) = 0
  /\ (_crc8 ([0xBE; 0xEF] ++ [0x92]) = 0 <-> 0x92 = _crc8 [0xBE; 0xEF]).
Proof.
  assert (H : is_byte 0x92) by (unfold is_byte; lia).
  split; [ exact H | ].
  exact (crc8_zero_residue [0xBE; 0xEF] 0x92 H).
Defined.

(** X3. A corruption confined to one byte of a buffer, wherever the byte
    sits and whatever surrounds it, always changes the checksum: two
    buffers that differ in exactly one byte position never share a
    [_crc8]. *)
Theorem crc8_detects_single_byte_corruption
  (pre suf : list Z) (b b' : Z)
  (Hb : is_byte b) (Hb' : is_byte b') (Hdiff : b <> b') :
  _crc8 (pre ++ b :: suf) <> _crc8 (pre ++ b' :: suf).
Proof.
  rewrite !crc8_as_register, !crc8_register_app, !crc8_register_cons.
  rewrite (land_0xFF_byte b Hb), (land_0xFF_byte b' Hb').
  pose proof (crc8_register_byte pre 0xFF is_byte_0xFF) as Hr.
  set (r := crc8_register pre 0xFF) in *.
  intros Heq. apply Hdiff.
  apply crc8_register_injective in Heq; try apply crc8_round_byte.
  apply crc8_round_injective in Heq; try (apply lxor_byte; assumption).
  rewrite (Z.lxor_comm r b), (Z.lxor_comm r b') in Heq.
  exact (lxor_cancel_r _ _ _ Heq).
Qed.

Lemma crc8_detects_single_byte_corruption_witness :
  is_byte 0x4D /\ is_byte 0x4C /\ 0x4D <> 0x4C
  /\ _crc8 ([0x62] ++ 0x4D :: []) <> _crc8 ([0x62] ++ 0x4C :: []).
Proof.
  assert (H1 : is_byte 0x4D) by (unfold is_byte; lia).
  assert (H2 : is_byte 0x4C) by (unfold is_byte; lia).
  assert (H3 : 0x4D <> 0x4C) by lia.
  split; [ exact H1 | ]. split; [ exact H2 | ]. split; [ exact H3 | ].
  exact (crc8_detects_single_byte_corruption [0x62] [] 0x4D 0x4C H1 H2 H3).
Defined.

(** X4. [_crc8] is affine over exclusive or: for two buffers of the
    same length, the checksum of their element-wise XOR is the XOR of
    their checksums and of the checksum of the all-zero buffer of that
    length.  The effect of an error pattern on the checksum therefore
    does not depend on the data it hits. *)
Theorem crc8_xor_affine (a e : list Z) (Hlen : List.length a = List.length e) :
  _crc8 (xor_bytes a e) =
  Z.lxor (Z.lxor (_crc8 a) (_crc8 e)) (_crc8 (repeat 0 (List.length a))).
Proof.
  rewrite !crc8_as_register.
  assert (He0 : crc8_register e 0 =
                Z.lxor (crc8_register e 0xFF)
                       (crc8_register (repeat 0 (List.length a)) 0xFF)).
  { rewrite Hlen.
    rewrite <- (crc8_register_xor e (repeat 0 (List.length e)) 0xFF 0xFF);
      [ | rewrite repeat_length; reflexivity | exact is_byte_0xFF | exact is_byte_0xFF ].
    rewrite xor_bytes_zeros. reflexivity. }
  rewrite Z.lxor_assoc, <- He0.
  rewrite <- (crc8_register_xor a e 0xFF 0 Hlen is_byte_0xFF is_byte_0).
  reflexivity.
Qed.

Lemma crc8_xor_affine_witness :
  List.length [0x62; 0x4D] = List.length [0x01; 0x80]
  /\ _crc8 (xor_bytes [0x62; 0x4D] [0x01; 0x80]) =
     Z.lxor (Z.lxor (_crc8 [0x62; 0x4D]) (_crc8 [0x01; 0x80]))
            (_crc8 (repeat 0 (List.length [0x62; 0x4D]))).
Proof.
  split; [ reflexivity | ].
  exact (crc8_xor_affine [0x62; 0x4D] [0x01; 0x80] eq_refl).
Defined.

(** The checksum change caused by an error pattern on two data bytes,
    together with the pattern, weighs at least four bits. *)
Lemma error_pattern_weight (e0 e1 : Z) :
  is_byte e0 -> is_byte e1 ->
  ((e0 =? 0) && (e1 =? 0))
  || (4 <=? popcount8 e0 + popcount8 e1
            + popcount8 (Z.lxor (_crc8 [e0; e1]) (_crc8 [0; 0]))) = true.
Proof.
  intros H0 H1.
  apply (by_exhaustion
           (fun x y => ((x =? 0) && (y =? 0))
                       || (4 <=? popcount8 x + popcount8 y
                                 + popcount8 (Z.lxor (_crc8 [x; y]) (_crc8 [0; 0])))));
    try assumption.
  vm_compute. reflexivity.
Qed.

(** X5. A valid triplet (two data bytes and their checksum) is at bit
    distance four or more from every other valid triplet: when one, two
    or three bits of a valid triplet are flipped, anywhere among its 24
    bits, the result fails the CRC comparison, and [read_status] on it
    returns [None]. *)
Theorem crc8_detects_up_to_three_bit_flips
  (self : SHT31) (b0 b1 b2 c0 c1 c2 : Z) (rest : list (list Z)) (history : list event)
  (Hb : Forall is_byte [b0; b1; b2]) (Hc : Forall is_byte [c0; c1; c2])
  (Hvalid : b2 = _crc8 [b0; b1])
  (Hflips : 1 <= bit_distance3 b0 b1 b2 c0 c1 c2 <= 3) :
  c2 <> _crc8 [c0; c1]
  /\ fst (read_status self (answering [c0; c1; c2] rest history)) = Ok None.
Proof.
  destruct (is_byte_frame3 _ _ _ Hb) as (Hb0 & Hb1 & Hb2).
  destruct (is_byte_frame3 _ _ _ Hc) as (Hc0 & Hc1 & Hc2).
  assert (Hbad : c2 <> _crc8 [c0; c1]).
  { intros Hc2v.
    pose proof (lxor_byte b0 c0 Hb0 Hc0) as He0.
    pose proof (lxor_byte b1 c1 Hb1 Hc1) as He1.
    pose proof (crc8_xor_affine [b0; b1] [Z.lxor b0 c0; Z.lxor b1 c1] eq_refl) as Haff.
    change (xor_bytes [b0; b1] [Z.lxor b0 c0; Z.lxor b1 c1])
      with [Z.lxor b0 (Z.lxor b0 c0); Z.lxor b1 (Z.lxor b1 c1)] in Haff.
    rewrite <- !Z.lxor_assoc, !Z.lxor_nilpotent, !Z.lxor_0_l in Haff.
    cbn [List.length repeat] in Haff.
    rewrite <- Hc2v, <- Hvalid in Haff.
    assert (Hsyn : Z.lxor b2 c2 =
                   Z.lxor (_crc8 [Z.lxor b0 c0; Z.lxor b1 c1]) (_crc8 [0; 0])).
    { rewrite Haff, <- !Z.lxor_assoc, Z.lxor_nilpotent, Z.lxor_0_l. reflexivity. }
    pose proof (error_pattern_weight _ _ He0 He1) as Hw.
    unfold bit_distance3 in Hflips. rewrite Hsyn in Hflips.
    apply orb_true_iff in Hw. destruct Hw as [Hzero | Hheavy].
    - apply andb_true_iff in Hzero. destruct Hzero as [Hz0 Hz1].
      apply Z.eqb_eq in Hz0, Hz1.
      rewrite Hz0, Hz1 in Hflips.
      rewrite Z.lxor_nilpotent, popcount8_0 in Hflips. lia.
    - apply Z.leb_le in Hheavy. lia. }
  split; [ exact Hbad | ].
  rewrite read_status_run. cbn [fst].
  destruct (Z.eqb_spec c2 (_crc8 [c0; c1])) as [E | _]; [ contradiction | reflexivity ].
Qed.

Lemma crc8_detects_up_to_three_bit_flips_witness :
  Forall is_byte [0x20; 0x10; 0x1E] /\ Forall is_byte [0x21; 0x50; 0x1F]
  /\ 0x1E = _crc8 [0x20; 0x10]
  /\ 1 <= bit_distance3 0x20 0x10 0x1E 0x21 0x50 0x1F <= 3
  /\ 0x1F <> _crc8 [0x21; 0x50]
  /\ fst (read_status default_sensor (answering [0x21; 0x50; 0x1F] [] [])) = Ok None.
Proof.
  assert (Hb : Forall is_byte [0x20; 0x10; 0x1E]).
  { repeat constructor; unfold is_byte; lia. }
  assert (Hc : Forall is_byte [0x21; 0x50; 0x1F]).
  { repeat constructor; unfold is_byte; lia. }
  assert (Hf : 1 <= bit_distance3 0x20 0x10 0x1E 0x21 0x50 0x1F <= 3).
  { vm_compute. split; discriminate. }
  split; [ exact Hb | ]. split; [ exact Hc | ].
  split; [ reflexivity | ]. split; [ exact Hf | ].
  exact (crc8_detects_up_to_three_bit_flips
           default_sensor 0x20 0x10 0x1E 0x21 0x50 0x1F [] [] Hb Hc eq_refl Hf).
Defined.

End Crc8Guarantees.

(** ** Readings, one after another *)

Section Readings.

(** A combined read of a frame of six bytes, in full: the value
    decoded, the reply consumed, the three bus operations logged. *)
Lemma read_temperature_humidity_decodes (self : SHT31) (frame : list Z) rest history :
  List.length frame = 6%nat ->
  Forall is_byte frame ->
  read_temperature_humidity self (answering frame rest history) =
  (Ok (decode_frame frame),
   {| replies := rest; log := history ++ measurement_traffic self |}).
Proof.
  intros Hlen Hbytes.
  destruct frame as [ | b0 [ | b1 [ | b2 [ | b3 [ | b4 [ | b5 [ | b6 frame ]]]]]]];
    try discriminate Hlen.
  destruct (is_byte_frame6 _ _ _ _ _ _ Hbytes) as (H0 & H1 & _ & H3 & H4 & _).
  rewrite read_temperature_humidity_run. unfold decode_frame, measurement_traffic.
  rewrite (shift_or_be16 b0 b1 H1), (shift_or_be16 b3 b4 H4).
  rewrite (count_converts b0 b1 H0 H1), (count_converts b3 b4 H3 H4).
  destruct (b2 =? _crc8 [b0; b1]), (b5 =? _crc8 [b3; b4]); reflexivity.
Qed.

(** X6. Every frame of six bytes whose two CRC bytes match decodes to a
    temperature between -45.0 and 130.0 and a humidity between 0.0 and
    100.0, bounds included, in binary64 arithmetic. *)
Theorem decoded_values_within_sensor_range
  (self : SHT31) (b0 b1 b2 b3 b4 b5 : Z) (rest : list (list Z)) (history : list event)
  (Hbytes : Forall is_byte [b0; b1; b2; b3; b4; b5])
  (Ht : b2 = _crc8 [b0; b1]) (Hh : b5 = _crc8 [b3; b4]) :
  exists t h,
    fst (read_temperature_humidity self (answering [b0; b1; b2; b3; b4; b5] rest history))
    = Ok (t, h)
    /\ ((-45.0) <=? t)%float = true /\ (t <=? 130.0)%float = true
    /\ (0.0 <=? h)%float = true /\ (h <=? 100.0)%float = true.
Proof.
  destruct (is_byte_frame6 _ _ _ _ _ _ Hbytes) as (H0 & H1 & _ & H3 & H4 & _).
  rewrite (read_temperature_humidity_bytes self _ _ _ _ _ _ rest history Hbytes).
  rewrite <- Ht, <- Hh, !Z.eqb_refl. cbn [andb].
  exists (celsius_of_raw (be16 b0 b1)), (percent_of_raw (be16 b3 b4)).
  split; [ reflexivity | ].
  assert (Hrange : forall hi lo, is_byte hi -> is_byte lo ->
            (((-45.0) <=? celsius_of_raw (be16 hi lo))%float
             && (celsius_of_raw (be16 hi lo) <=? 130.0)%float)
            && ((0.0 <=? percent_of_raw (be16 hi lo))%float
                && (percent_of_raw (be16 hi lo) <=? 100.0)%float) = true).
  { intros hi lo Hhi Hlo.
    apply (by_exhaustion
             (fun x y =>
                (((-45.0) <=? celsius_of_raw (be16 x y))%float
                 && (celsius_of_raw (be16 x y) <=? 130.0)%float)
                && ((0.0 <=? percent_of_raw (be16 x y))%float
                    && (percent_of_raw (be16 x y) <=? 100.0)%float)));
      try assumption.
    vm_compute. reflexivity. }
  pose proof (Hrange b0 b1 H0 H1) as Rt.
  pose proof (Hrange b3 b4 H3 H4) as Rh.
  apply andb_true_iff in Rt. destruct Rt as [Rt _].
  apply andb_true_iff in Rt. destruct Rt as [Rt1 Rt2].
  apply andb_true_iff in Rh. destruct Rh as [_ Rh].
  apply andb_true_iff in Rh. destruct Rh as [Rh1 Rh2].
  repeat split; assumption.
Qed.

Lemma decoded_values_within_sensor_range_witness :
  Forall is_byte [0x62; 0x4D; 0x7C; 0x80; 0x00; 0xA2]
  /\ 0x7C = _crc8 [0x62; 0x4D] /\ 0xA2 = _crc8 [0x80; 0x00]
  /\ exists t h,
       fst (read_temperature_humidity default_sensor
              (answering [0x62; 0x4D; 0x7C; 0x80; 0x00; 0xA2] [] []))
       = Ok (t, h)
       /\ ((-45.0) <=? t)%float = true /\ (t <=? 130.0)%float = true
       /\ (0.0 <=? h)%float = true /\ (h <=? 100.0)%float = true.
Proof.
  assert (H : Forall is_byte [0x62; 0x4D; 0x7C; 0x80; 0x00; 0xA2]).
  { repeat constructor; unfold is_byte; lia. }
  split; [ exact H | ]. split; [ reflexivity | ]. split; [ reflexivity | ].
  exact (decoded_values_within_sensor_range
           default_sensor 0x62 0x4D 0x7C 0x80 0x00 0xA2 [] [] H eq_refl eq_refl).
Defined.

(** X7. A CRC failure leaves no trace in the driver: two combined reads
    in a row, each answered with a frame of six bytes, consume the two
    frames, the second reading is decoded from the second frame alone
    whatever happened to the first, and the bus sees one command, wait
    and block read per call, with no retry. *)
Theorem crc_failure_leaves_driver_available
  (self : SHT31) (first second : list Z) (rest : list (list Z)) (history : list event)
  (Hfirst : List.length first = 6%nat) (Hfirst_bytes : Forall is_byte first)
  (Hsecond : List.length second = 6%nat) (Hsecond_bytes : Forall is_byte second) :
  (r1 <- read_temperature_humidity self ;;
   r2 <- read_temperature_humidity self ;;
   ret (r1, r2)) (answering first (second :: rest) history)
  = (Ok (decode_frame first, decode_frame second),
     {| replies := rest;
        log := history ++ measurement_traffic self ++ measurement_traffic self |}).
Proof.
  unfold bind at 1.
  rewrite (read_temperature_humidity_decodes self first (second :: rest) history
             Hfirst Hfirst_bytes).
  unfold bind at 1.
  change {| replies := second :: rest; log := history ++ measurement_traffic self |}
    with (answering second rest (history ++ measurement_traffic self)).
  rewrite (read_temperature_humidity_decodes self second rest _ Hsecond Hsecond_bytes).
  unfold ret. rewrite <- List.app_assoc. reflexivity.
Qed.

Lemma crc_failure_leaves_driver_available_witness :
  List.length [0x62; 0x4D; 0x7C; 0x80; 0x00; 0x00] = 6%nat
  /\ Forall is_byte [0x62; 0x4D; 0x7C; 0x80; 0x00; 0x00]
  /\ List.length [0xFF; 0xFF; 0xAC; 0x00; 0x00; 0x81] = 6%nat
  /\ Forall is_byte [0xFF; 0xFF; 0xAC; 0x00; 0x00; 0x81]
  /\ fst ((r1 <- read_temperature_humidity default_sensor ;;
           r2 <- read_temperature_humidity default_sensor ;;
           ret (r1, r2))
            (answering [0x62; 0x4D; 0x7C; 0x80; 0x00; 0x00]
               ([0xFF; 0xFF; 0xAC; 0x00; 0x00; 0x81] :: []) []))
     = Ok ((nan, nan), (130.0, 0.0)%float).
Proof.
  assert (H1 : Forall is_byte [0x62; 0x4D; 0x7C; 0x80; 0x00; 0x00]).
  { repeat constructor; unfold is_byte; lia. }
  assert (H2 : Forall is_byte [0xFF; 0xFF; 0xAC; 0x00; 0x00; 0x81]).
  { repeat constructor; unfold is_byte; lia. }
  split; [ reflexivity | ]. split; [ exact H1 | ].
  split; [ reflexivity | ]. split; [ exact H2 | ].
  rewrite (crc_failure_leaves_driver_available default_sensor
             [0x62; 0x4D; 0x7C; 0x80; 0x00; 0x00]
             [0xFF; 0xFF; 0xAC; 0x00; 0x00; 0x81] [] [] eq_refl H1 eq_refl H2).
  reflexivity.
Defined.

(** X8. When the transport has nothing to deliver, every operation that
    reads from the sensor raises [IOError] after it has written its
    command: the combined read, the two single-field reads,
    [read_status] and the seven predicates; none of them returns a
    value. *)
Theorem transport_failure_reaches_the_caller
  (self : SHT31) (w : world) (Hsilent : replies w = []) :
  fst (read_temperature_humidity self w) = Raise IOError
  /\ fst (read_temperature self w) = Raise IOError
  /\ fst (read_humidity self w) = Raise IOError
  /\ fst (read_status self w) = Raise IOError
  /\ Forall (fun pk : (SHT31 -> M world bool) * Z => fst (fst pk self w) = Raise IOError)
            status_predicates
  /\ log (snd (read_temperature_humidity self w)) = log w ++ measurement_traffic self
  /\ log (snd (read_status self w)) = log w ++ status_traffic self.
Proof.
  destruct w as [pending history]. cbn [replies] in Hsilent. subst pending.
  split; [ reflexivity | ].
  split; [ reflexivity | ].
  split; [ reflexivity | ].
  split; [ reflexivity | ].
  split; [ unfold status_predicates; repeat (apply Forall_cons; [ reflexivity | ]);
           apply Forall_nil | ].
  split.
  - apply read_temperature_humidity_log.
  - cbn. rewrite <- List.app_assoc. reflexivity.
Qed.

Lemma transport_failure_reaches_the_caller_witness :
  replies {| replies := []; log := [] |} = []
  /\ fst (read_temperature_humidity default_sensor {| replies := []; log := [] |})
     = Raise IOError.
Proof.
  split; [ reflexivity | ].
  exact (proj1 (transport_failure_reaches_the_caller
                  default_sensor {| replies := []; log := [] |} eq_refl)).
Defined.

End Readings.

(** ** Status queries, one after another *)

Section StatusQueries.

(** A predicate on a three-value frame, in full. *)
Lemma status_flag_full_run (mask : Z) (self : SHT31) (b0 b1 b2 : Z) rest history :
  status_flag mask self (answering [b0; b1; b2] rest history) =
  (if negb (b2 =? _crc8 [b0; b1]) then Raise TypeError
   else Ok (py_bool (Z.land (Z.lor (Z.shiftl b0 8) b1) mask)),
   {| replies := rest; log := history ++ status_traffic self |}).
Proof.
  unfold status_flag, bind at 1.
  rewrite read_status_run. unfold status_traffic.
  destruct (negb (b2 =? _crc8 [b0; b1])); reflexivity.
Qed.

Lemma predicates_are_flags (p : SHT31 -> M world bool) (k : Z) :
  In (p, k) status_predicates -> p = status_flag (2 ^ k) /\ 0 <= k.
Proof.
  unfold status_predicates. cbn [In].
  intros H.
  repeat match goal with
         | H : _ \/ _ |- _ => destruct H as [H | H]
         | H : (_, _) = (_, _) |- _ => injection H as <- <-; split; [ reflexivity | lia ]
         end.
  contradiction.
Qed.

(** X9. No predicate caches the status word: each call sends ReadStatus
    and reads three bytes of its own, so two predicates called in a row
    consume two frames and the second one reports on the second frame.  A
    predicate that raises on a bad CRC has still consumed its frame. *)
Theorem each_predicate_reads_the_status_afresh
  (self : SHT31) (p q : SHT31 -> M world bool) (kp kq : Z)
  (a0 a1 a2 c0 c1 c2 : Z) (rest : list (list Z)) (history : list event)
  (Hp : In (p, kp) status_predicates) (Hq : In (q, kq) status_predicates)
  (Hbytes : Forall is_byte [a0; a1; a2; c0; c1; c2])
  (Hc : c2 = _crc8 [c0; c1]) :
  (a2 = _crc8 [a0; a1] ->
   (x <- p self ;; y <- q self ;; ret (x, y))
     (answering [a0; a1; a2] ([c0; c1; c2] :: rest) history)
   = (Ok (Z.testbit (be16 a0 a1) kp, Z.testbit (be16 c0 c1) kq),
      {| replies := rest;
         log := history ++ status_traffic self ++ status_traffic self |}))
  /\ (a2 <> _crc8 [a0; a1] ->
      p self (answering [a0; a1; a2] ([c0; c1; c2] :: rest) history)
      = (Raise TypeError,
         {| replies := [c0; c1; c2] :: rest;
            log := history ++ status_traffic self |})
      /\ q self (answering [c0; c1; c2] rest (history ++ status_traffic self))
         = (Ok (Z.testbit (be16 c0 c1) kq),
            {| replies := rest;
               log := history ++ status_traffic self ++ status_traffic self |})).
Proof.
  destruct (is_byte_frame6 _ _ _ _ _ _ Hbytes) as (_ & Ha1 & _ & _ & Hc1 & _).
  destruct (predicates_are_flags p kp Hp) as [-> Hkp].
  destruct (predicates_are_flags q kq Hq) as [-> Hkq].
  assert (Hsecond : forall h,
            status_flag (2 ^ kq) self (answering [c0; c1; c2] rest h)
            = (Ok (Z.testbit (be16 c0 c1) kq),
               {| replies := rest; log := h ++ status_traffic self |})).
  { intros h. rewrite status_flag_full_run.
    rewrite <- Hc, Z.eqb_refl. cbn [negb].
    unfold py_bool. rewrite land_pow2_test by exact Hkq.
    rewrite (shift_or_be16 c0 c1 Hc1). reflexivity. }
  split.
  - intros Ha. unfold bind at 1. rewrite status_flag_full_run.
    rewrite <- Ha, Z.eqb_refl. cbn [negb].
    unfold bind at 1.
    change {| replies := [c0; c1; c2] :: rest; log := history ++ status_traffic self |}
      with (answering [c0; c1; c2] rest (history ++ status_traffic self)).
    rewrite Hsecond. unfold ret, py_bool.
    rewrite land_pow2_test by exact Hkp.
    rewrite (shift_or_be16 a0 a1 Ha1), <- List.app_assoc. reflexivity.
  - intros Ha. split.
    + rewrite status_flag_full_run.
      destruct (Z.eqb_spec a2 (_crc8 [a0; a1])) as [E | _]; [ contradiction | reflexivity ].
    + rewrite Hsecond, <- List.app_assoc. reflexivity.
Qed.

Lemma each_predicate_reads_the_status_afresh_witness :
  In (is_heater_active, 13) status_predicates
  /\ In (is_reset_detected, 4) status_predicates
  /\ Forall is_byte [0x20; 0x10; 0x1E; 0x00; 0x10; 0xC2]
  /\ 0xC2 = _crc8 [0x00; 0x10]
  /\ 0x1E = _crc8 [0x20; 0x10]
  /\ (x <- is_heater_active default_sensor ;;
      y <- is_reset_detected default_sensor ;;
      ret (x, y))
       (answering [0x20; 0x10; 0x1E] ([0x00; 0x10; 0xC2] :: []) [])
     = (Ok (Z.testbit (be16 0x20 0x10) 13, Z.testbit (be16 0x00 0x10) 4),
        {| replies := [];
           log := [] ++ status_traffic default_sensor ++ status_traffic default_sensor |}).
Proof.
  assert (Hp : In (is_heater_active, 13) status_predicates).
  { unfold status_predicates. do 5 right. left. reflexivity. }
  assert (Hq : In (is_reset_detected, 4) status_predicates).
  { unfold status_predicates. do 2 right. left. reflexivity. }
  assert (Hb : Forall is_byte [0x20; 0x10; 0x1E; 0x00; 0x10; 0xC2]).
  { repeat constructor; unfold is_byte; lia. }
  split; [ exact Hp | ]. split; [ exact Hq | ]. split; [ exact Hb | ].
  split; [ reflexivity | ]. split; [ reflexivity | ].
  exact (proj1 (each_predicate_reads_the_status_afresh
                  default_sensor is_heater_active is_reset_detected 13 4
                  0x20 0x10 0x1E 0x00 0x10 0xC2 [] [] Hp Hq Hb eq_refl) eq_refl).
Defined.

End StatusQueries.

(** ** The third route and the polling loop *)

Section Programs.

(** X11. The route that reports temperature and humidity together
    fails like the other two: every request raises [TypeError] inside
    [get_measurement], no document is produced, and the module state,
    the cached measurement and the world behind the sensor are left as
    they were. *)
Theorem combined_route_returns_no_document (s : globals) :
  get_temperature_and_humidity s = (Raise TypeError, s)
  /\ (forall doc s', get_temperature_and_humidity s <> (Ok (Json doc), s'))
  /\ hw (snd (get_temperature_and_humidity s)) = hw s
  /\ last_measurement (snd (get_temperature_and_humidity s)) = last_measurement s.
Proof.
  assert (H : get_temperature_and_humidity s = (Raise TypeError, s)).
  { unfold get_temperature_and_humidity, bind at 1.
    rewrite get_measurement_run. reflexivity. }
  rewrite H. repeat split. intros doc s'. discriminate.
Qed.

(** One turn of the loop on a frame of six bytes. *)
Lemma main_turn_run (self : SHT31) (frame : list Z) rest history out :
  List.length frame = 6%nat /\ Forall is_byte frame ->
  main_turn self {| machine := answering frame rest history; stdout := out |} =
  (Ok tt,
   {| machine := {| replies := rest;
                    log := history ++ measurement_traffic self ++ [EvSleep 2] |};
      stdout := out ++ [decode_frame frame] |}).
Proof.
  intros [Hlen Hbytes].
  unfold main_turn, bind, on_machine, print, sleep, emit.
  cbn [machine stdout].
  rewrite (read_temperature_humidity_decodes self frame rest history Hlen Hbytes).
  cbn [machine stdout replies log].
  rewrite <- List.app_assoc. reflexivity.
Qed.

Lemma main_loop_run (self : SHT31) (turns : nat) :
  forall frames history out,
    Forall (fun frame => List.length frame = 6%nat /\ Forall is_byte frame) frames ->
    (turns <= List.length frames)%nat ->
    main_loop turns self
      {| machine := {| replies := frames; log := history |}; stdout := out |} =
    (Ok tt,
     {| machine :=
          {| replies := skipn turns frames;
             log := history
                    ++ List.concat (repeat (measurement_traffic self ++ [EvSleep 2]) turns) |};
        stdout := out ++ map decode_frame (firstn turns frames) |}).
Proof.
  induction turns as [ | turns IH]; intros frames history out Hall Hle.
  - cbn [main_loop skipn firstn repeat List.concat map]. unfold ret.
    rewrite !List.app_nil_r. reflexivity.
  - destruct frames as [ | frame frames ]; [ cbn in Hle; lia | ].
    inversion Hall as [ | ? ? Hlen Hrest ]; subst.
    cbn [main_loop]. unfold bind at 1.
    change {| replies := frame :: frames; log := history |}
      with (answering frame frames history).
    rewrite (main_turn_run self frame frames history out Hlen).
    rewrite IH; [ | exact Hrest | cbn in Hle; lia ].
    cbn [skipn firstn repeat List.concat map].
    rewrite <- !List.app_assoc. reflexivity.
Qed.

Lemma main_loop_starves (self : SHT31) (frames : list (list Z)) :
  forall history out,
    Forall (fun frame => List.length frame = 6%nat /\ Forall is_byte frame) frames ->
    fst (main_loop (S (List.length frames)) self
           {| machine := {| replies := frames; log := history |}; stdout := out |})
    = Raise IOError.
Proof.
  induction frames as [ | frame frames IH]; intros history out Hall.
  - reflexivity.
  - inversion Hall as [ | ? ? Hlen Hrest ]; subst.
    cbn [List.length]. change (main_loop (S (S (List.length frames))) self)
      with (main_turn self ;; main_loop (S (List.length frames)) self).
    unfold bind at 1.
    change {| replies := frame :: frames; log := history |}
      with (answering frame frames history).
    rewrite (main_turn_run self frame frames history out Hlen).
    apply IH. exact Hrest.
Qed.

(** X12. [main] opens bus 1 at address 0x44, waits 0.05 s, and then
    polls: as long as the sensor delivers frames of six bytes, each turn
    of the loop prints the decoding of the next frame (NaN pairs included,
    a CRC failure does not stop the loop) and performs one command, one
    0.015 s wait, one 6-byte read and a 2 s sleep.  The loop ends only by
    an [IOError], in the turn that finds no reply. *)
Theorem main_prints_every_frame_until_the_transport_fails
  (frames : list (list Z)) (turns : nat)
  (Hframes : Forall (fun frame => List.length frame = 6%nat /\ Forall is_byte frame)
                    frames)
  (Hturns : (turns <= List.length frames)%nat) :
  main turns {| machine := {| replies := frames; log := [] |}; stdout := [] |} =
  (Ok tt,
   {| machine :=
        {| replies := skipn turns frames;
           log := [EvOpen 1; EvSleep 0.05]
                  ++ List.concat (repeat (measurement_traffic default_sensor ++ [EvSleep 2])
                               turns) |};
      stdout := map decode_frame (firstn turns frames) |})
  /\ fst (main (S (List.length frames))
            {| machine := {| replies := frames; log := [] |}; stdout := [] |})
     = Raise IOError.
Proof.
  split.
  - unfold main, bind at 1, on_machine. cbn [machine stdout].
    rewrite init_run. cbn [replies log List.app].
    rewrite (main_loop_run _ turns frames _ [] Hframes Hturns).
    reflexivity.
  - unfold main, bind at 1, on_machine. cbn [machine stdout].
    rewrite init_run. cbn [replies log List.app].
    apply main_loop_starves. exact Hframes.
Qed.

Lemma main_prints_every_frame_until_the_transport_fails_witness :
  Forall (fun frame => List.length frame = 6%nat /\ Forall is_byte frame)
         [[0x62; 0x4D; 0x7C; 0x80; 0x00; 0x00]; [0xFF; 0xFF; 0xAC; 0x00; 0x00; 0x81]]
  /\ (2 <= List.length
             [[0x62; 0x4D; 0x7C; 0x80; 0x00; 0x00]; [0xFF; 0xFF; 0xAC; 0x00; 0x00; 0x81]])%nat
  /\ stdout (snd (main 2
       {| machine :=
            {| replies := [[0x62; 0x4D; 0x7C; 0x80; 0x00; 0x00];
                           [0xFF; 0xFF; 0xAC; 0x00; 0x00; 0x81]];
               log := [] |};
          stdout := [] |}))
     = [(nan, nan); (130.0, 0.0)%float].
Proof.
  assert (Hf : Forall (fun frame => List.length frame = 6%nat /\ Forall is_byte frame)
                 [[0x62; 0x4D; 0x7C; 0x80; 0x00; 0x00];
                  [0xFF; 0xFF; 0xAC; 0x00; 0x00; 0x81]]).
  { repeat (apply Forall_cons; [ split; [ reflexivity | ] | ]);
      try apply Forall_nil;
      repeat constructor; unfold is_byte; lia. }
  assert (Ht : (2 <= List.length
                      [[0x62; 0x4D; 0x7C; 0x80; 0x00; 0x00];
                       [0xFF; 0xFF; 0xAC; 0x00; 0x00; 0x81]])%nat).
  { cbn. lia. }
  split; [ exact Hf | ]. split; [ exact Ht | ].
  rewrite (proj1 (main_prints_every_frame_until_the_transport_fails _ 2 Hf Ht)).
  reflexivity.
Defined.

End Programs.

(** ** Readings identify the counts *)

Section Resolution.

(** Solving the transfer functions for the count gives the count back. *)
Lemma raw_of_decoded (hi lo : Z) :
  is_byte hi -> is_byte lo ->
  raw_of_celsius (celsius_of_raw (be16 hi lo)) = be16 hi lo
  /\ raw_of_percent (percent_of_raw (be16 hi lo)) = be16 hi lo.
Proof.
  intros Hhi Hlo.
  assert (H : (raw_of_celsius (celsius_of_raw (be16 hi lo)) =? be16 hi lo)
              && (raw_of_percent (percent_of_raw (be16 hi lo)) =? be16 hi lo) = true).
  { apply (by_exhaustion
             (fun x y => (raw_of_celsius (celsius_of_raw (be16 x y)) =? be16 x y)
                         && (raw_of_percent (percent_of_raw (be16 x y)) =? be16 x y)));
      try assumption.
    vm_compute. reflexivity. }
  apply andb_true_iff in H. destruct H as [Ht Hh].
  split; apply Z.eqb_eq; assumption.
Qed.

Lemma be16_injective (a0 a1 c0 c1 : Z) :
  is_byte a0 -> is_byte a1 -> is_byte c0 -> is_byte c1 ->
  be16 a0 a1 = be16 c0 c1 -> a0 = c0 /\ a1 = c1.
Proof.
  unfold is_byte, be16. lia.
Qed.

(** X13. The binary64 rounding of the transfer functions merges no two
    counts: solving the decoded temperature (or humidity) for the count
    gives back the 16-bit count it came from, so two six-byte frames
    with matching CRC bytes that decode to the same pair of values are
    the same frame. *)
Theorem valid_frames_with_equal_readings_are_equal
  (self : SHT31)
  (a0 a1 a2 a3 a4 a5 c0 c1 c2 c3 c4 c5 : Z)
  (resta restc : list (list Z)) (historya historyc : list event)
  (Ha : Forall is_byte [a0; a1; a2; a3; a4; a5])
  (Hc : Forall is_byte [c0; c1; c2; c3; c4; c5])
  (Hat : a2 = _crc8 [a0; a1]) (Hah : a5 = _crc8 [a3; a4])
  (Hct : c2 = _crc8 [c0; c1]) (Hch : c5 = _crc8 [c3; c4])
  (Hsame : fst (read_temperature_humidity self
                  (answering [a0; a1; a2; a3; a4; a5] resta historya))
           = fst (read_temperature_humidity self
                    (answering [c0; c1; c2; c3; c4; c5] restc historyc))) :
  [a0; a1; a2; a3; a4; a5] = [c0; c1; c2; c3; c4; c5]
  /\ fst (read_temperature_humidity self
            (answering [a0; a1; a2; a3; a4; a5] resta historya))
     = Ok (celsius_of_raw (be16 a0 a1), percent_of_raw (be16 a3 a4))
  /\ raw_of_celsius (celsius_of_raw (be16 a0 a1)) = be16 a0 a1
  /\ raw_of_percent (percent_of_raw (be16 a3 a4)) = be16 a3 a4.
Proof.
  destruct (is_byte_frame6 _ _ _ _ _ _ Ha) as (Ha0 & Ha1 & _ & Ha3 & Ha4 & _).
  destruct (is_byte_frame6 _ _ _ _ _ _ Hc) as (Hc0 & Hc1 & _ & Hc3 & Hc4 & _).
  rewrite (read_temperature_humidity_bytes self _ _ _ _ _ _ resta historya Ha) in *.
  rewrite (read_temperature_humidity_bytes self _ _ _ _ _ _ restc historyc Hc) in Hsame.
  rewrite <- Hat, <- Hah, <- Hct, <- Hch, !Z.eqb_refl in *. cbn [andb] in *.
  injection Hsame as Ht Hh.
  apply (f_equal raw_of_celsius) in Ht.
  apply (f_equal raw_of_percent) in Hh.
  rewrite (proj1 (raw_of_decoded a0 a1 Ha0 Ha1)),
          (proj1 (raw_of_decoded c0 c1 Hc0 Hc1)) in Ht.
  rewrite (proj2 (raw_of_decoded a3 a4 Ha3 Ha4)),
          (proj2 (raw_of_decoded c3 c4 Hc3 Hc4)) in Hh.
  destruct (be16_injective _ _ _ _ Ha0 Ha1 Hc0 Hc1 Ht) as [-> ->].
  destruct (be16_injective _ _ _ _ Ha3 Ha4 Hc3 Hc4 Hh) as [-> ->].
  subst a2 a5 c2 c5.
  split; [ reflexivity | ].
  split; [ reflexivity | ].
  split; [ apply raw_of_decoded; assumption | apply raw_of_decoded; assumption ].
Qed.

Lemma valid_frames_with_equal_readings_are_equal_witness :
  Forall is_byte [0x62; 0x4D; 0x7C; 0x80; 0x00; 0xA2]
  /\ 0x7C = _crc8 [0x62; 0x4D] /\ 0xA2 = _crc8 [0x80; 0x00]
  /\ raw_of_celsius (celsius_of_raw (be16 0x62 0x4D)) = be16 0x62 0x4D
  /\ raw_of_percent (percent_of_raw (be16 0x80 0x00)) = be16 0x80 0x00.
Proof.
  assert (H : Forall is_byte [0x62; 0x4D; 0x7C; 0x80; 0x00; 0xA2]).
  { repeat constructor; unfold is_byte; lia. }
  split; [ exact H | ]. split; [ reflexivity | ]. split; [ reflexivity | ].
  exact (proj2 (proj2 (valid_frames_with_equal_readings_are_equal
                         default_sensor
                         0x62 0x4D 0x7C 0x80 0x00 0xA2 0x62 0x4D 0x7C 0x80 0x00 0xA2
                         [] [[0]] [] [EvSleep 2] H H eq_refl eq_refl eq_refl eq_refl
                         eq_refl))).
Defined.

End Resolution.
